(** * dataclass_mage.utils.typing_compat

    A shallow embedding of [src/dataclass_mage/utils/typing_compat.py]:
    the classification, decomposition and resolution of type annotations.

    The module is a thin layer over the host's [typing] library.  The file
    therefore has these layers:

    - [PyObj]: the annotation objects the module inspects, with their
      runtime type ([type_of], [isinstance]) and attributes ([getattr]);
    - [annotation]: the text of a forward reference, as the host compiles
      it;
    - [typing]: the primitives of the host's [typing] library the module
      binds or calls ([get_args], the union constructor, subscription with
      substitution, the evaluation of forward references);
    - the functions of [typing_compat.py] themselves, in source order,
      under the names the source gives them, in [Section typing_compat];
    - the properties. *)

From Stdlib Require Import Ascii.
From stdpp Require Import base option list strings gmap.

Set Warnings "-clear-no-such-hyp".

(** ** Failures *)

(** The exceptions the module lets escape.  [AttributeError] is what the
    source re-raises with a bare [raise]. *)
Inductive Exn : Set :=
| AttributeError
| NameError
| TypeError
| SyntaxError
| KeyError.

Inductive result (A : Type) : Type :=
| Ok (a : A)
| Raise (e : Exn).
Arguments Ok {A} a.
Arguments Raise {A} e.

#[global] Instance result_ret : MRet result := fun A a => Ok a.
#[global] Instance result_bind : MBind result := fun A B f m =>
  match m with
  | Ok a => f a
  | Raise e => Raise e
  end.

(** [try: r except AttributeError: h] *)
Definition try_except_AttributeError {A} (r : result A) (h : result A) : result A :=
  match r with
  | Raise AttributeError => h
  | _ => r
  end.

(** ** Runtime types *)

(** The class of a class. *)
Inductive MetaClass : Set :=
| M_type                                (* [type] *)
| M_TypedDictMeta (provider : string)   (* [_TypedDictMeta] of one helper's module *)
| M_other (name : string).              (* any other metaclass *)

(** [type(obj)], as far as the module can tell objects apart. *)
Inductive PyType : Set :=
| T_NoneType | T_int | T_str | T_tuple | T_list | T_frozenset | T_dict
| T_function
| T_meta (m : MetaClass)          (* the object is a class *)
| T_TypeVar
| T_ForwardRef
| T_SpecialForm                   (* typing._SpecialForm *)
| T_GenericAlias                  (* typing._GenericAlias *)
| T_VariadicGenericAlias          (* typing._VariadicGenericAlias *)
| T_AnnotatedAlias                (* _AnnotatedAlias *)
| T_types_GenericAlias            (* types.GenericAlias *)
| T_types_UnionType               (* types.UnionType *)
| T_instance (cls : string).      (* an instance of some other class *)

#[global] Instance MetaClass_eq_dec : EqDecision MetaClass.
Proof. solve_decision. Defined.
#[global] Instance PyType_eq_dec : EqDecision PyType.
Proof. solve_decision. Defined.

(** [issubclass(t, u)] on the runtime types above: the two alias classes
    derived from [typing._GenericAlias] are the only proper subclasses. *)
Definition issubclass (t u : PyType) : bool :=
  bool_decide (t = u) ||
  match t, u with
  | T_VariadicGenericAlias, T_GenericAlias => true
  | T_AnnotatedAlias, T_GenericAlias => true
  | _, _ => false
  end.

(** ** Annotation objects *)

(** How a [typing._GenericAlias] came to be: by subscription, or as one of
    the bare names of the [typing] module ([List], [Dict], ...; [Tuple] and
    [Callable] are the variadic ones). *)
Inductive AliasKind : Set :=
| Parameterized
| BareSpecial
| BareVariadic.

#[global] Instance AliasKind_eq_dec : EqDecision AliasKind.
Proof. solve_decision. Defined.

#[warnings="-register-all"]
Inductive PyObj : Type :=
| PyNone
| PyInt (z : Z)
| PyStr (s : string)
| PyTuple (xs : list PyObj)
| PyList (xs : list PyObj)
| PyFrozenSet (xs : list PyObj)
| PyDict (kvs : list (string * PyObj))
| PyClass (meta : MetaClass) (name : string) (attrs : list (string * PyObj))
| PyTypedDictHelper (provider : string)
| TypeVar (name : string)
| SpecialForm (name : string)
| GenericAlias (kind : AliasKind) (origin : PyObj) (args : list PyObj)
| AnnotatedAlias (origin : PyObj) (metadata : list PyObj)
| TypesGenericAlias (origin : PyObj) (args : list PyObj)
| UnionType (args : list PyObj)
| ForwardRef (arg : string) (is_argument : bool)
| Instance (cls : string) (attrs : list (string * PyObj)).

Definition PyObj_eq_dec_fix : ∀ a b : PyObj, {a = b} + {a ≠ b}.
Proof.
  fix IH 1.
  assert (Hl : ∀ xs ys : list PyObj, {xs = ys} + {xs ≠ ys})
    by (intros xs ys; exact (List.list_eq_dec IH xs ys)).
  assert (Ha : ∀ xs ys : list (string * PyObj), {xs = ys} + {xs ≠ ys}).
  { intros xs ys. apply List.list_eq_dec.
    intros [k x] [k' y].
    destruct (String.string_dec k k') as [->|Hk]; [|right; congruence].
    destruct (IH x y) as [->|Hx]; [left; reflexivity|right; congruence]. }
  intros a b.
  decide equality;
    solve [ apply Z.eq_dec | apply String.string_dec | apply Bool.bool_dec
          | apply MetaClass_eq_dec | apply AliasKind_eq_dec ].
Defined.

#[global] Instance PyObj_eq_dec : EqDecision PyObj := PyObj_eq_dec_fix.

(** [a is b].  Classes, special forms and type variables exist once per
    name, so identity on them is equality of the values below. *)
Definition py_is (a b : PyObj) : bool := bool_decide (a = b).

(** [a in (b1, ..., bn)] *)
Definition py_in (a : PyObj) (bs : list PyObj) : bool := bool_decide (a ∈ bs).

Definition type_of (o : PyObj) : PyType :=
  match o with
  | PyNone => T_NoneType
  | PyInt _ => T_int
  | PyStr _ => T_str
  | PyTuple _ => T_tuple
  | PyList _ => T_list
  | PyFrozenSet _ => T_frozenset
  | PyDict _ => T_dict
  | PyClass meta _ _ => T_meta meta
  | PyTypedDictHelper _ => T_function
  | TypeVar _ => T_TypeVar
  | SpecialForm _ => T_SpecialForm
  | GenericAlias BareVariadic _ _ => T_VariadicGenericAlias
  | GenericAlias _ _ _ => T_GenericAlias
  | AnnotatedAlias _ _ => T_AnnotatedAlias
  | TypesGenericAlias _ _ => T_types_GenericAlias
  | UnionType _ => T_types_UnionType
  | ForwardRef _ _ => T_ForwardRef
  | Instance cls _ => T_instance cls
  end.

Definition isinstance (o : PyObj) (t : PyType) : bool := issubclass (type_of o) t.

(** [isinstance(o, (t1, ..., tn))] *)
Definition isinstance_any (o : PyObj) (ts : list PyType) : bool :=
  existsb (isinstance o) ts.

(** ** Attributes *)

Fixpoint assoc (name : string) (attrs : list (string * PyObj)) : option PyObj :=
  match attrs with
  | [] => None
  | (k, v) :: rest => if decide (k = name) then Some v else assoc name rest
  end.

(** Removal of duplicates that keeps the first occurrence of each element,
    as the host's [typing] does when it collects type variables and when it
    builds a union. *)
Fixpoint dedup_first `{EqDecision A} (seen l : list A) : list A :=
  match l with
  | [] => []
  | x :: rest =>
      if decide (x ∈ seen) then dedup_first seen rest
      else x :: dedup_first (x :: seen) rest
  end.

(** The type variables an argument contributes to the [__parameters__] of
    the alias that holds it ([typing._collect_type_vars]). *)
Fixpoint type_vars_of (t : PyObj) : list PyObj :=
  match t with
  | TypeVar _ => [t]
  | GenericAlias Parameterized _ args => dedup_first [] (concat (map type_vars_of args))
  | AnnotatedAlias origin _ => type_vars_of origin
  | _ => []
  end.

Definition _collect_type_vars (types : list PyObj) : list PyObj :=
  dedup_first [] (concat (map type_vars_of types)).

(** [obj.name]: the slots the alias classes set in their constructors, the
    attribute table of a class or instance otherwise.  Only slots read by
    this module and by the host functions below are listed. *)
Definition getattr (o : PyObj) (name : string) : result PyObj :=
  match o with
  | GenericAlias _ origin args =>
      if decide (name = "__origin__") then Ok origin
      else if decide (name = "__args__") then Ok (PyTuple args)
      else if decide (name = "__parameters__") then Ok (PyTuple (_collect_type_vars args))
      else Raise AttributeError
  | AnnotatedAlias origin metadata =>
      if decide (name = "__origin__") then Ok origin
      else if decide (name = "__args__") then Ok (PyTuple [origin])
      else if decide (name = "__metadata__") then Ok (PyTuple metadata)
      else if decide (name = "__parameters__") then Ok (PyTuple (_collect_type_vars [origin]))
      else Raise AttributeError
  | TypesGenericAlias origin args =>
      if decide (name = "__origin__") then Ok origin
      else if decide (name = "__args__") then Ok (PyTuple args)
      else Raise AttributeError
  | UnionType args =>
      if decide (name = "__args__") then Ok (PyTuple args)
      else Raise AttributeError
  | SpecialForm n =>
      if decide (name = "_name") then Ok (PyStr n) else Raise AttributeError
  | TypeVar n =>
      if decide (name = "__name__") then Ok (PyStr n) else Raise AttributeError
  | ForwardRef arg is_argument =>
      if decide (name = "__forward_arg__") then Ok (PyStr arg) else Raise AttributeError
  | PyClass _ _ attrs | Instance _ attrs =>
      match assoc name attrs with
      | Some v => Ok v
      | None => Raise AttributeError
      end
  | _ => Raise AttributeError
  end.

(** [len(t)] of a tuple-valued attribute. *)
Definition py_len (o : PyObj) : result nat :=
  match o with
  | PyTuple xs | PyList xs | PyFrozenSet xs => Ok (length xs)
  | PyDict kvs => Ok (length kvs)
  | PyStr s => Ok (String.length s)
  | _ => Raise TypeError
  end.

(** ** The host runtime *)

(** The host generations the module distinguishes or depends on:
    - [Py37], the 3.7 line: [typing] has the private names [_Protocol] and
      [_VariadicGenericAlias], its bare names ([List], [Dict], ...) are
      instances of [_GenericAlias], builtin containers are not
      subscriptable;
    - [Py39], the 3.9 line: builtin containers are subscriptable, the two
      private names are gone and the bare names are instances of a class
      of their own;
    - [Py310], 3.10 and later: as [Py39], with the compact union syntax. *)
Inductive HostRuntime : Set := Py37 | Py39 | Py310.

(** Modelled from the spec: [constants.PY310_OR_ABOVE] is not under src/;
    it is the boolean capability flag computed once from the host runtime
    version, which selects the modern or the legacy strategy. *)
Definition PY310_OR_ABOVE (host : HostRuntime) : bool :=
  match host with Py310 => true | _ => false end.

(** ** Names of the host's library *)

Definition builtin_class (name : string) : PyObj :=
  PyClass M_type name [("__module__", PyStr "builtins")].

Definition NoneType : PyObj := builtin_class "NoneType".

Module builtins.
Definition int := builtin_class "int".
Definition str := builtin_class "str".
Definition float := builtin_class "float".
Definition bool := builtin_class "bool".
Definition bytes := builtin_class "bytes".
Definition list := builtin_class "list".
Definition dict := builtin_class "dict".
Definition set := builtin_class "set".
Definition frozenset := builtin_class "frozenset".
Definition tuple := builtin_class "tuple".
Definition type := builtin_class "type".
Definition object := builtin_class "object".
End builtins.

Module collections.
Definition cls (name : string) : PyObj :=
  PyClass M_type name [("__module__", PyStr "collections")].
Definition deque := cls "deque".
Definition defaultdict := cls "defaultdict".
Definition OrderedDict := cls "OrderedDict".
Definition Counter := cls "Counter".
Definition ChainMap := cls "ChainMap".
Definition abc_Callable : PyObj :=
  PyClass (M_other "ABCMeta") "Callable" [("__module__", PyStr "collections.abc")].
Definition abc_Sequence : PyObj :=
  PyClass (M_other "ABCMeta") "Sequence" [("__module__", PyStr "collections.abc")].
End collections.

(** The classes [X] for which the host accepts [X[...]] natively once it
    has subscriptable builtin containers. *)
Definition native_generics : list PyObj :=
  [ builtins.list; builtins.dict; builtins.set; builtins.frozenset;
    builtins.tuple; builtins.type;
    collections.deque; collections.defaultdict; collections.OrderedDict;
    collections.Counter; collections.ChainMap ].

(** [[f(x) for x in xs]] where [f] may raise: the first failure escapes. *)
Definition result_mapM {A B} (f : A → result B) : list A → result (list B) :=
  fix go (xs : list A) : result (list B) :=
    match xs with
    | [] => Ok []
    | x :: rest =>
        match f x with
        | Ok y => match go rest with Ok ys => Ok (y :: ys) | Raise e => Raise e end
        | Raise e => Raise e
        end
    end.

(** ** Annotation text

    The host compiles the text of a forward reference as an expression and
    evaluates it.  The embedding covers the expressions annotations are
    written with: names, subscription [X[a, b]] and the compact union
    [a | b]; any other text is rejected as the host rejects text that is
    not an expression. *)
Module annotation.

Inductive Token : Set :=
| TName (s : string)
| TLBracket
| TRBracket
| TComma
| TBar.

#[warnings="-register-all"]
Inductive Expr : Set :=
| EName (s : string)
| ESub (e : Expr) (args : list Expr)
| EOr (lhs rhs : Expr).

Definition is_digit (c : ascii) : bool :=
  let n := Ascii.nat_of_ascii c in (48 <=? n) && (n <=? 57).

Definition is_ident_start (c : ascii) : bool :=
  let n := Ascii.nat_of_ascii c in
  (65 <=? n) && (n <=? 90) || (97 <=? n) && (n <=? 122) || (n =? 95).

Definition is_ident_char (c : ascii) : bool := is_ident_start c || is_digit c.

Fixpoint all_ident_chars (s : string) : bool :=
  match s with
  | EmptyString => true
  | String c rest => is_ident_char c && all_ident_chars rest
  end.

Definition is_identifier (s : string) : bool :=
  match s with
  | EmptyString => false
  | String c rest => is_ident_start c && all_ident_chars rest
  end.

Definition punctuation (c : ascii) : option Token :=
  if decide (c = "["%char) then Some TLBracket
  else if decide (c = "]"%char) then Some TRBracket
  else if decide (c = ","%char) then Some TComma
  else if decide (c = "|"%char) then Some TBar
  else None.

(** Ends the name read so far, if any. *)
Definition flush (cur : string) (ts : list Token) : option (list Token) :=
  match cur with
  | EmptyString => Some ts
  | _ => if is_identifier cur then Some (TName cur :: ts) else None
  end.

Fixpoint tokenize (cur : string) (s : string) : option (list Token) :=
  match s with
  | EmptyString => flush cur []
  | String c rest =>
      if is_ident_char c then tokenize (cur +:+ String c EmptyString) rest
      else
        match tokenize EmptyString rest with
        | None => None
        | Some ts =>
            if decide (c = " "%char) then flush cur ts
            else match punctuation c with
                 | Some t => flush cur (t :: ts)
                 | None => None
                 end
        end
  end.

(** Recursive descent; [|] binds weaker than subscription.  Every call
    spends one unit of [fuel]. *)
Fixpoint parse_expr (fuel : nat) (ts : list Token) {struct fuel}
  : option (Expr * list Token) :=
  match fuel with
  | 0 => None
  | S fuel =>
      match parse_postfix fuel ts with
      | Some (e, rest) => parse_or_tail fuel e rest
      | None => None
      end
  end
with parse_postfix (fuel : nat) (ts : list Token) {struct fuel}
  : option (Expr * list Token) :=
  match fuel with
  | 0 => None
  | S fuel =>
      match ts with
      | TName s :: rest => parse_trailers fuel (EName s) rest
      | _ => None
      end
  end
with parse_trailers (fuel : nat) (e : Expr) (ts : list Token) {struct fuel}
  : option (Expr * list Token) :=
  match fuel with
  | 0 => None
  | S fuel =>
      match ts with
      | TLBracket :: rest =>
          match parse_args fuel rest with
          | Some (args, rest') => parse_trailers fuel (ESub e args) rest'
          | None => None
          end
      | _ => Some (e, ts)
      end
  end
with parse_args (fuel : nat) (ts : list Token) {struct fuel}
  : option (list Expr * list Token) :=
  match fuel with
  | 0 => None
  | S fuel =>
      match parse_expr fuel ts with
      | Some (e, TComma :: rest) =>
          match parse_args fuel rest with
          | Some (es, rest') => Some (e :: es, rest')
          | None => None
          end
      | Some (e, TRBracket :: rest) => Some ([e], rest)
      | _ => None
      end
  end
with parse_or_tail (fuel : nat) (e : Expr) (ts : list Token) {struct fuel}
  : option (Expr * list Token) :=
  match fuel with
  | 0 => None
  | S fuel =>
      match ts with
      | TBar :: rest =>
          match parse_postfix fuel rest with
          | Some (e2, rest') => parse_or_tail fuel (EOr e e2) rest'
          | None => None
          end
      | _ => Some (e, ts)
      end
  end.

Definition parse_tokens (ts : list Token) : option Expr :=
  match parse_expr (4 * length ts + 4) ts with
  | Some (e, []) => Some e
  | _ => None
  end.

(** [compile(text, '<string>', 'eval')] *)
Definition parse (text : string) : option Expr :=
  match tokenize EmptyString text with
  | Some ts => parse_tokens ts
  | None => None
  end.

Definition join (sep : string) : list string → string :=
  fix go (xs : list string) : string :=
    match xs with
    | [] => EmptyString
    | [x] => x
    | x :: rest => x +:+ sep +:+ go rest
    end.

Fixpoint unparse (e : Expr) : string :=
  match e with
  | EName s => s
  | ESub f args => unparse f +:+ "[" +:+ join ", " (map unparse args) +:+ "]"
  | EOr a b => unparse a +:+ " | " +:+ unparse b
  end.

End annotation.

(** ** The host's [typing] library

    The objects and functions of the host library that the module binds or
    calls.  They follow the implementation of [typing] to which the private
    names used by the module ([_GenericAlias], [_VariadicGenericAlias],
    [_SpecialForm], [_Protocol]) belong; the native forms of the later
    hosts ([types.GenericAlias], [types.UnionType]) are added by
    [HostRuntime]. *)
Module typing.

Definition Generic : PyObj :=
  PyClass M_type "Generic" [("__module__", PyStr "typing")].
Definition _Protocol : PyObj :=
  PyClass (M_other "_ProtocolMeta") "_Protocol" [("__module__", PyStr "typing")].

Definition Union : PyObj := SpecialForm "Union".
Definition Optional : PyObj := SpecialForm "Optional".
Definition ClassVar : PyObj := SpecialForm "ClassVar".
Definition Final : PyObj := SpecialForm "Final".
Definition Any : PyObj := SpecialForm "Any".
Definition Literal : PyObj := SpecialForm "Literal".

Definition T : PyObj := TypeVar "T".
Definition KT : PyObj := TypeVar "KT".
Definition VT : PyObj := TypeVar "VT".
Definition T_co : PyObj := TypeVar "T_co".
Definition CT_co : PyObj := TypeVar "CT_co".

Definition List : PyObj := GenericAlias BareSpecial builtins.list [T].
Definition Dict : PyObj := GenericAlias BareSpecial builtins.dict [KT; VT].
Definition Set_ : PyObj := GenericAlias BareSpecial builtins.set [T].
Definition FrozenSet : PyObj := GenericAlias BareSpecial builtins.frozenset [T_co].
Definition Type_ : PyObj := GenericAlias BareSpecial builtins.type [CT_co].
Definition Sequence : PyObj := GenericAlias BareSpecial collections.abc_Sequence [T_co].
Definition Deque : PyObj := GenericAlias BareSpecial collections.deque [T].
Definition DefaultDict : PyObj := GenericAlias BareSpecial collections.defaultdict [KT; VT].
Definition OrderedDict : PyObj := GenericAlias BareSpecial collections.OrderedDict [KT; VT].
Definition Counter : PyObj := GenericAlias BareSpecial collections.Counter [T].
Definition ChainMap : PyObj := GenericAlias BareSpecial collections.ChainMap [KT; VT].
Definition Tuple : PyObj := GenericAlias BareVariadic builtins.tuple [].

(** The names above are the objects the 3.7 line binds.  The two private
    names [typing._Protocol] and [typing._VariadicGenericAlias] exist on
    that line only: reading them from the module on a later host fails. *)
Definition has_private_names (host : HostRuntime) : bool :=
  match host with Py37 => true | _ => false end.

(** [typing._Protocol], read from the module. *)
Definition attr__Protocol (host : HostRuntime) : result PyObj :=
  if has_private_names host then Ok _Protocol else Raise AttributeError.

(** [typing._VariadicGenericAlias], read from the module. *)
Definition attr__VariadicGenericAlias (host : HostRuntime) : result PyType :=
  if has_private_names host then Ok T_VariadicGenericAlias
  else Raise AttributeError.

(** From the 3.9 line on a bare name is an instance of
    [typing._SpecialGenericAlias] (or of one of its two subclasses, for
    [Tuple] and [Callable]), which is no [_GenericAlias].  It records its
    origin and the number of parameters it takes, [-1] for any number. *)
Definition _SpecialGenericAlias (origin : PyObj) (nparams : Z) : PyObj :=
  Instance "_SpecialGenericAlias"
    [("__origin__", origin); ("_nparams", PyInt nparams)].

(** The object a host binds to a bare name, given the object the 3.7 line
    binds to it. *)
Definition bare_name (host : HostRuntime) (form37 : PyObj) : PyObj :=
  match host, form37 with
  | Py37, _ => form37
  | _, GenericAlias BareVariadic origin _ => _SpecialGenericAlias origin (-1)
  | _, GenericAlias _ origin args =>
      _SpecialGenericAlias origin (Z.of_nat (length args))
  | _, _ => form37
  end.

(** [_type_check(arg, msg, is_argument)]: what may stand as a type
    argument. *)
Definition _type_check (is_argument : bool) (arg : PyObj) : result PyObj :=
  let invalid_generic_forms :=
    if is_argument then [Generic; _Protocol; ClassVar] else [Generic; _Protocol] in
  match arg with
  | PyNone => Ok NoneType
  | PyStr s => Ok (ForwardRef s true)
  | GenericAlias _ origin _ | AnnotatedAlias origin _ =>
      if py_in origin invalid_generic_forms then Raise TypeError else Ok arg
  | SpecialForm _ => if py_is arg Any then Ok arg else Raise TypeError
  | PyClass _ _ _ =>
      if py_in arg [Generic; _Protocol] then Raise TypeError else Ok arg
  | TypeVar _ | ForwardRef _ _ => Ok arg
  | TypesGenericAlias _ _ | UnionType _ | PyTypedDictHelper _ => Ok arg
  | PyInt _ | PyTuple _ | PyList _ | PyFrozenSet _ | PyDict _ | Instance _ _ =>
      Raise TypeError (* not callable *)
  end.

(** [_remove_dups_flatten]: members that are unions themselves are
    replaced by their members (one level: they were flattened when they
    were built), then strict duplicates are dropped, the first occurrence
    of each being kept. *)
Definition _remove_dups_flatten (host : HostRuntime) (parameters : list PyObj)
  : list PyObj :=
  let members (p : PyObj) : list PyObj :=
    match p with
    | GenericAlias _ origin args => if py_is origin Union then args else [p]
    | UnionType args => if PY310_OR_ABOVE host then args else [p]
    | PyTuple (u :: rest) => if py_is u Union then rest else [p]
    | _ => [p]
    end in
  dedup_first [] (concat (map members parameters)).

(** [Union[parameters]] *)
Definition Union_getitem (host : HostRuntime) (parameters : list PyObj)
  : result PyObj :=
  match parameters with
  | [] => Raise TypeError
  | _ =>
      parameters ← result_mapM (_type_check true) parameters;
      match _remove_dups_flatten host parameters with
      | [p] => Ok p
      | parameters => Ok (GenericAlias Parameterized Union parameters)
      end
  end.

(** The substitute for one type variable: [subs[i]] where [tvars[i]] is
    the variable. *)
Fixpoint subst_tvar (tvars subs : list PyObj) (arg : PyObj) : PyObj :=
  match tvars, subs with
  | tvar :: tvars', sub :: subs' =>
      if decide (arg = tvar) then sub else subst_tvar tvars' subs' arg
  | _, _ => arg
  end.

(** [_subs_tvars(tp, tvars, subs)]: a union is rebuilt by the union
    constructor, any other alias by [copy_with]. *)
Fixpoint _subs_tvars (host : HostRuntime) (tvars subs : list PyObj) (tp : PyObj)
  : result PyObj :=
  match tp with
  | GenericAlias _ origin args =>
      new_args ← result_mapM
        (λ arg, match arg with
                | TypeVar _ => Ok (subst_tvar tvars subs arg)
                | _ => _subs_tvars host tvars subs arg
                end) args;
      if py_is origin Union then Union_getitem host new_args
      else Ok (GenericAlias Parameterized origin new_args)
  | _ => Ok tp
  end.

(** [alias[params]] for a [typing._GenericAlias]. *)
Definition GenericAlias_getitem (host : HostRuntime) (self : PyObj)
    (params : list PyObj) : result PyObj :=
  match self with
  | GenericAlias BareVariadic origin _ =>
      if py_is origin collections.abc_Callable then
        match params with
        | [PyList args; ret] =>
            args ← result_mapM (_type_check true) args;
            ret ← _type_check true ret;
            Ok (GenericAlias Parameterized origin (args ++ [ret]))
        | _ => Raise TypeError
        end
      else
        params ← result_mapM (_type_check true) params;
        Ok (GenericAlias Parameterized origin params)
  | GenericAlias _ origin args =>
      if py_in origin [Generic; _Protocol] then Raise TypeError
      else
        params ← result_mapM (_type_check true) params;
        let tvars := _collect_type_vars args in
        match tvars with
        | [] => Raise TypeError
        | _ =>
            if decide (length params = length tvars)
            then _subs_tvars host tvars params self
            else Raise TypeError
        end
  | _ => Raise TypeError
  end.

(** [form[params]] for a [typing._SpecialForm]. *)
Definition SpecialForm_getitem (host : HostRuntime) (self : PyObj)
    (params : list PyObj) : result PyObj :=
  match self with
  | SpecialForm "Union" => Union_getitem host params
  | SpecialForm "Optional" =>
      match params with
      | [p] => arg ← _type_check true p; Union_getitem host [arg; NoneType]
      | _ => Raise TypeError
      end
  | SpecialForm "ClassVar" | SpecialForm "Final" =>
      match params with
      | [p] => item ← _type_check true p; Ok (GenericAlias Parameterized self [item])
      | _ => Raise TypeError
      end
  | SpecialForm "Literal" => Ok (GenericAlias Parameterized self params)
  | _ => Raise TypeError
  end.

(** [name[params]] for a [typing._SpecialGenericAlias]. *)
Definition SpecialGenericAlias_getitem (attrs : list (string * PyObj))
    (params : list PyObj) : result PyObj :=
  match assoc "__origin__" attrs, assoc "_nparams" attrs with
  | Some origin, Some (PyInt nparams) =>
      if py_is origin collections.abc_Callable then
        match params with
        | [PyList args; ret] =>
            args ← result_mapM (_type_check true) args;
            ret ← _type_check true ret;
            Ok (GenericAlias Parameterized origin (args ++ [ret]))
        | _ => Raise TypeError
        end
      else
        params ← result_mapM (_type_check true) params;
        if decide (nparams = (-1)%Z ∨ nparams = Z.of_nat (length params))
        then Ok (GenericAlias Parameterized origin params)
        else Raise TypeError
  | _, _ => Raise TypeError
  end.

(** [obj[params]] as the host dispatches it. *)
Definition getitem (host : HostRuntime) (obj : PyObj) (params : list PyObj)
  : result PyObj :=
  match obj with
  | SpecialForm _ => SpecialForm_getitem host obj params
  | GenericAlias _ _ _ => GenericAlias_getitem host obj params
  | Instance "_SpecialGenericAlias" attrs => SpecialGenericAlias_getitem attrs params
  | PyClass _ _ _ =>
      match host with
      | Py37 => Raise TypeError (* 'type' object is not subscriptable *)
      | _ => if py_in obj native_generics then Ok (TypesGenericAlias obj params)
             else Raise TypeError
      end
  | _ => Raise TypeError
  end.

(** [lhs | rhs]: only a host with the compact union syntax has it. *)
Definition or_ (host : HostRuntime) (lhs rhs : PyObj) : result PyObj :=
  let unionable (o : PyObj) : bool :=
    match o with
    | PyNone | PyClass _ _ _ | TypesGenericAlias _ _ | UnionType _ => true
    | _ => false
    end in
  let operand (o : PyObj) : PyObj :=
    match o with PyNone => NoneType | _ => o end in
  let members (o : PyObj) : list PyObj :=
    match o with UnionType args => args | _ => [operand o] end in
  let of_typing (o : PyObj) : bool :=
    match o with
    | GenericAlias _ _ _ | AnnotatedAlias _ _ | SpecialForm _ | TypeVar _ => true
    | _ => false
    end in
  if PY310_OR_ABOVE host then
    if unionable lhs && unionable rhs then
      match dedup_first [] (members lhs ++ members rhs) with
      | [p] => Ok p
      | args => Ok (UnionType args)
      end
    else if of_typing lhs || of_typing rhs then Union_getitem host [lhs; rhs]
    else Raise TypeError
  else Raise TypeError.

(** [typing.get_args] and its compatibility shim
    [typing_extensions.get_args]: the arguments recorded on the alias;
    the bare names of the library have none; for a callable the
    parameter types come back as one list before the return type. *)
Definition get_args_of_alias (origin : PyObj) (res : list PyObj) : list PyObj :=
  if py_is origin collections.abc_Callable then
    match res with
    | [] => res
    | _ => [PyList (removelast res); List.last res PyNone]
    end
  else res.

Definition get_args (tp : PyObj) : list PyObj :=
  match tp with
  | AnnotatedAlias origin metadata => origin :: metadata
  | GenericAlias Parameterized origin args => get_args_of_alias origin args
  | TypesGenericAlias origin args => get_args_of_alias origin args
  | UnionType args => args
  | _ => []
  end.

Definition typing_extensions_get_args (tp : PyObj) : list PyObj :=
  match tp with
  | AnnotatedAlias origin metadata => origin :: metadata
  | GenericAlias Parameterized origin args => get_args_of_alias origin args
  | TypesGenericAlias origin args => get_args_of_alias origin args
  | _ => []
  end.

(** The names every evaluation can see, as far as this development needs
    them: some classes of the [builtins] module.  The host's module binds
    many more names, so the table is a part of what the host knows: what
    it binds, the host binds; that it does not bind a name says nothing
    about the host. *)
Definition builtins_namespace : gmap string PyObj :=
  list_to_map
    [ ("int", builtins.int); ("str", builtins.str); ("float", builtins.float);
      ("bool", builtins.bool); ("bytes", builtins.bytes);
      ("list", builtins.list); ("dict", builtins.dict); ("set", builtins.set);
      ("frozenset", builtins.frozenset); ("tuple", builtins.tuple);
      ("type", builtins.type); ("object", builtins.object) ].

(** Name lookup of [eval(code, globalns, localns)]. *)
Definition lookup_name (globalns localns : gmap string PyObj) (name : string)
  : result PyObj :=
  match localns !! name with
  | Some v => Ok v
  | None =>
      match globalns !! name with
      | Some v => Ok v
      | None =>
          match builtins_namespace !! name with
          | Some v => Ok v
          | None => Raise NameError
          end
      end
  end.

Fixpoint eval (host : HostRuntime) (globalns localns : gmap string PyObj)
    (code : annotation.Expr) : result PyObj :=
  match code with
  | annotation.EName name =>
      if decide (name = "None") then Ok PyNone
      else lookup_name globalns localns name
  | annotation.ESub f args =>
      obj ← eval host globalns localns f;
      params ← result_mapM (eval host globalns localns) args;
      getitem host obj params
  | annotation.EOr lhs rhs =>
      l ← eval host globalns localns lhs;
      r ← eval host globalns localns rhs;
      or_ host l r
  end.

(** [ForwardRef(arg, is_argument=...)]: the text must compile. *)
Definition ForwardRef_init (arg : string) (is_argument : bool) : result PyObj :=
  match annotation.parse arg with
  | Some _ => Ok (ForwardRef arg is_argument)
  | None => Raise SyntaxError
  end.

(** [ForwardRef._evaluate(globalns, localns)]; a missing local namespace
    stands for the global one. *)
Definition ForwardRef__evaluate (host : HostRuntime) (self : PyObj)
    (globalns : gmap string PyObj) (localns : option (gmap string PyObj))
  : result PyObj :=
  match self with
  | ForwardRef arg is_argument =>
      match annotation.parse arg with
      | Some code =>
          v ← eval host globalns (default globalns localns) code;
          _type_check is_argument v
      | None => Raise SyntaxError
      end
  | _ => Raise TypeError
  end.

(** [typing._eval_type(t, globalns, localns)] *)
Fixpoint _eval_type (host : HostRuntime) (t : PyObj)
    (globalns : gmap string PyObj) (localns : option (gmap string PyObj))
  : result PyObj :=
  match t with
  | ForwardRef _ _ => ForwardRef__evaluate host t globalns localns
  | GenericAlias kind origin args =>
      ev_args ← result_mapM (λ a, _eval_type host a globalns localns) args;
      if decide (ev_args = args) then Ok t
      else Ok (GenericAlias kind origin ev_args)
  | _ => Ok t
  end.

End typing.

(** ** Names imported from the rest of the package *)

(** Modelled from the spec: [type_def.PyLiteral] is not under src/; it is
    the literal-value marker, the origin of every literal-value type. *)
Definition PyLiteral : PyObj := typing.Literal.

(** Modelled from the spec: [type_def.PyForwardRef] is not under src/; it
    builds the placeholder of a deferred reference from its text and the
    [is_argument] flag. *)
Definition PyForwardRef (arg : PyObj) (is_argument : bool) : result PyObj :=
  match arg with
  | PyStr text => typing.ForwardRef_init text is_argument
  | _ => Raise TypeError
  end.

(** Modelled from the spec: [type_def.FREF] is not under src/; a deferred
    reference carries either a raw textual annotation or a pre-built
    placeholder object, so these are the two constraints of [FREF]. *)
Definition FREF___constraints__ : list PyType := [T_str; T_ForwardRef].

(** The rewriting of the compact union into the heavy union form, on the
    syntax of an annotation. *)
Fixpoint repl_or (e : annotation.Expr) : annotation.Expr :=
  match e with
  | annotation.EName s => annotation.EName s
  | annotation.ESub f args => annotation.ESub (repl_or f) (map repl_or args)
  | annotation.EOr a b =>
      annotation.ESub (annotation.EName "Union") [repl_or a; repl_or b]
  end.

(** Modelled from the spec: [string_conv.repl_or_with_union] is not under
    src/; it rewrites any occurrence of the lightweight [x | y] notation
    into the heavier union form [Union[x, y]].  Text that is not an
    annotation expression is left as it is. *)
Definition repl_or_with_union (s : string) : string :=
  match annotation.parse s with
  | Some e => annotation.unparse (repl_or e)
  | None => s
  end.

(** The class statement [class name(base): pass] of the module body: the
    new class has the metaclass its base brings along; a structural-record
    helper brings the metaclass of its own module and the key tables. *)
Definition class_stmt (name : string) (base : PyObj) : PyObj :=
  match base with
  | PyTypedDictHelper provider =>
      PyClass (M_TypedDictMeta provider) name
        [ ("__module__", PyStr "dataclass_mage.utils.typing_compat");
          ("__annotations__", PyDict []);
          ("__required_keys__", PyFrozenSet []);
          ("__optional_keys__", PyFrozenSet []) ]
  | PyClass meta _ attrs => PyClass meta name attrs
  | _ => PyClass M_type name [("__module__", PyStr "dataclass_mage.utils.typing_compat")]
  end.

(** ** The module [typing_compat] *)

Section typing_compat.

(** The host runtime the process runs on, fixed once. *)
Context (host : HostRuntime).

(** [type_def.PyTypedDicts] is not under src/: the structural-record
    helpers known to the package. *)
Context (PyTypedDicts : list PyObj).

(** [[
TypedDictTypes = []
for PyTypedDict in PyTypedDicts:
    class RealPyTypedDict(PyTypedDict): pass
    TypedDictTypes.append(type(RealPyTypedDict))
    del RealPyTypedDict
]] *)
Definition TypedDictTypes : list PyType :=
  foldl (λ TypedDictTypes PyTypedDict,
           let RealPyTypedDict := class_stmt "RealPyTypedDict" PyTypedDict in
           TypedDictTypes ++ [type_of RealPyTypedDict])
        [] PyTypedDicts.

Definition _get_typing_locals : gmap string PyObj :=
  list_to_map
    [ ("Union", typing.Union);
      ("tuple", typing.Tuple);
      ("list", typing.List);
      ("dict", typing.Dict);
      ("set", typing.Set_);
      ("frozenset", typing.FrozenSet);
      ("type", typing.Type_);
      ("deque", typing.Deque);
      ("defaultdict", typing.DefaultDict);
      ("OrderedDict", typing.OrderedDict);
      ("Counter", typing.Counter);
      ("ChainMap", typing.ChainMap) ].

Definition get_keys_for_typed_dict (cls : PyObj) : result (PyObj * PyObj) :=
  required ← getattr cls "__required_keys__";
  optional ← getattr cls "__optional_keys__";
  Ok (required, optional).

Definition _is_annotated (cls : PyObj) : bool := isinstance cls T_AnnotatedAlias.

Definition _is_base_generic (cls : PyObj) : result bool :=
  if isinstance cls T_GenericAlias then
    origin ← getattr cls "__origin__";
    _Protocol ← typing.attr__Protocol host;
    if py_in origin [typing.Generic; _Protocol] then Ok false
    else
      _VariadicGenericAlias ← typing.attr__VariadicGenericAlias host;
      if isinstance cls _VariadicGenericAlias then Ok true
      else
        parameters ← getattr cls "__parameters__";
        n ← py_len parameters;
        Ok (bool_decide (0 < n))
  else if isinstance cls T_SpecialForm then
    name ← getattr cls "_name";
    Ok (py_in name [PyStr "ClassVar"; PyStr "Union"; PyStr "Optional"])
  else Ok false.

Definition is_literal (cls : PyObj) : result bool :=
  try_except_AttributeError
    (origin ← getattr cls "__origin__"; Ok (py_is origin PyLiteral))
    (Ok false).

(** The names bound by [if PY310_OR_ABOVE: ... else: ...]. *)

Definition _get_args : PyObj → list PyObj :=
  if PY310_OR_ABOVE host then typing.get_args
  else typing.typing_extensions_get_args.

Definition _BASE_GENERIC_TYPES : list PyType :=
  if PY310_OR_ABOVE host then
    [T_GenericAlias; T_SpecialForm; T_types_GenericAlias; T_types_UnionType]
  else
    [T_GenericAlias; T_SpecialForm].

Definition _TYPING_LOCALS : option (gmap string PyObj) :=
  if PY310_OR_ABOVE host then None
  else Some {[ "Union" := typing.Union ]}.

Definition _process_forward_annotation (base_type : PyObj) : result PyObj :=
  if PY310_OR_ABOVE host then PyForwardRef base_type false
  else
    match base_type with
    | PyStr s => PyForwardRef (PyStr (repl_or_with_union s)) false
    | _ => Raise TypeError
    end.

Definition _get_origin (cls : PyObj) (raise_ : option bool) : result PyObj :=
  let raise_ := default false raise_ in
  if PY310_OR_ABOVE host then
    if isinstance cls T_types_UnionType then Ok typing.Union
    else
      try_except_AttributeError (getattr cls "__origin__")
        (if raise_ then Raise AttributeError else Ok cls)
  else
    try_except_AttributeError (getattr cls "__origin__")
      (if raise_ then Raise AttributeError else Ok cls).

Definition _get_named_tuple_field_types (cls : PyObj) (raise_ : option bool)
  : result PyObj :=
  let raise_ := default true raise_ in
  try_except_AttributeError (getattr cls "__annotations__")
    (if raise_ then Raise AttributeError else Ok PyNone).

Definition is_typed_dict (cls : PyObj) : bool :=
  bool_decide (type_of cls ∈ TypedDictTypes).

Definition is_generic (cls : PyObj) : bool :=
  isinstance_any cls _BASE_GENERIC_TYPES.

Definition is_base_generic (cls : PyObj) : result bool := _is_base_generic cls.

Definition get_args (cls : PyObj) : list PyObj := _get_args cls.

Definition get_origin (cls : PyObj) (raise_ : option bool) : result PyObj :=
  let raise_ := default false raise_ in
  _get_origin cls (Some raise_).

Definition get_named_tuple_field_types (cls : PyObj) (raise_ : option bool)
  : result PyObj :=
  let raise_ := default true raise_ in
  _get_named_tuple_field_types cls (Some raise_).

Definition is_annotated (cls : PyObj) : bool := _is_annotated cls.

(** [sys.modules]: module name to module namespace. *)
Context (sys_modules : gmap string (gmap string PyObj)).

Definition module_dict (name : PyObj) : result (gmap string PyObj) :=
  match name with
  | PyStr n =>
      match sys_modules !! n with
      | Some d => Ok d
      | None => Raise KeyError
      end
  | _ => Raise KeyError
  end.

Definition eval_forward_ref (base_type cls : PyObj) : result PyObj :=
  base_type ←
    (if isinstance base_type T_str then _process_forward_annotation base_type
     else Ok base_type);
  module ← getattr cls "__module__";
  base_globals ← module_dict module;
  typing._eval_type host base_type base_globals _TYPING_LOCALS.

Definition eval_forward_ref_if_needed (base_type base_cls : PyObj) : result PyObj :=
  if isinstance_any base_type FREF___constraints__
  then eval_forward_ref base_type base_cls
  else Ok base_type.

End typing_compat.

(** ** Annotations and rules the statements below speak about *)

(** A few annotations used as concrete inputs below. *)
Definition int_or_str : PyObj := UnionType [builtins.int; builtins.str].

Definition is_class (o : PyObj) : bool :=
  match o with PyClass _ _ _ => true | _ => false end.

(** The decision rule of [is_base_generic] in the words of its
    description: an alias is judged by its origin, then by its being
    variadic, then by the type parameters it still carries; a special form
    by its name; nothing else is a base generic. *)
Definition base_generic_rule (cls : PyObj) : bool :=
  match cls with
  | GenericAlias kind origin args =>
      if bool_decide (origin = typing.Generic ∨ origin = typing._Protocol) then false
      else if bool_decide (kind = BareVariadic) then true
      else bool_decide (_collect_type_vars args ≠ [])
  | AnnotatedAlias origin _ =>
      if bool_decide (origin = typing.Generic ∨ origin = typing._Protocol) then false
      else bool_decide (_collect_type_vars [origin] ≠ [])
  | SpecialForm name =>
      bool_decide (name = "ClassVar" ∨ name = "Union" ∨ name = "Optional")
  | _ => false
  end.



(** A deferred reference: raw text or a pre-built placeholder. *)
Definition is_deferred (v : PyObj) : bool :=
  match v with
  | PyStr _ | ForwardRef _ _ => true
  | _ => false
  end.

(** A module [app] with an empty namespace and a class declared in it. *)
Definition app_modules : gmap string (gmap string PyObj) := {[ "app" := ∅ ]}.
Definition app_Record : PyObj := PyClass M_type "Record" [("__module__", PyStr "app")].

(** A type variable, and a class that may stand as a type argument. *)
Definition is_type_var (o : PyObj) : bool :=
  match o with TypeVar _ => true | _ => false end.

Definition is_argument_class (o : PyObj) : bool :=
  is_class o && negb (py_in o [typing.Generic; typing._Protocol]).

(** The module [app] once it binds the name of its class. *)
Definition app_namespace : gmap string PyObj := {[ "Record" := app_Record ]}.
Definition app_modules_bound : gmap string (gmap string PyObj) :=
  {[ "app" := app_namespace ]}.

(** A module [shop] that binds the names of its two classes. *)
Definition shop_Item : PyObj := PyClass M_type "Item" [("__module__", PyStr "shop")].
Definition shop_Order : PyObj := PyClass M_type "Order" [("__module__", PyStr "shop")].
Definition shop_namespace : gmap string PyObj :=
  {[ "Item" := shop_Item; "Order" := shop_Order ]}.
Definition shop_modules : gmap string (gmap string PyObj) :=
  {[ "shop" := shop_namespace ]}.

(** [Sequence[int]], the same object on every host. *)
Definition Sequence_of_int : PyObj :=
  GenericAlias Parameterized collections.abc_Sequence [builtins.int].

(** The words the host's grammar reserves, and the constant [__debug__]:
    none of them is read as a name. *)
Definition python_keywords : list string :=
  [ "False"; "None"; "True"; "and"; "as"; "assert"; "async"; "await";
    "break"; "class"; "continue"; "def"; "del"; "elif"; "else"; "except";
    "finally"; "for"; "from"; "global"; "if"; "import"; "in"; "is";
    "lambda"; "nonlocal"; "not"; "or"; "pass"; "raise"; "return"; "try";
    "while"; "with"; "yield"; "__debug__" ].

(** * Properties *)

(** ** Basic facts about the object model *)

Lemma py_is_true (a b : PyObj) : py_is a b = true ↔ a = b.
Proof. unfold py_is. apply bool_decide_eq_true. Qed.

(** A failing attribute access fails with [AttributeError]. *)
Lemma getattr_raises_only_AttributeError (o : PyObj) (name : string) (e : Exn) :
  getattr o name = Raise e → e = AttributeError.
Proof.
  destruct o; simpl; repeat case_decide; try destruct (assoc _ _);
    intros Hraise; inversion Hraise; reflexivity.
Qed.

Lemma foldl_snoc_map {A B} (f : A → B) (l : list A) (acc : list B) :
  foldl (λ acc x, acc ++ [f x]) acc l = acc ++ map f l.
Proof.
  revert acc. induction l as [|x l IH]; intros acc; simpl.
  - by rewrite app_nil_r.
  - rewrite IH. by rewrite <- app_assoc.
Qed.

Lemma dedup_first_spec `{EqDecision A} (l seen : list A) :
  NoDup (dedup_first seen l) ∧
  ∀ x, x ∈ dedup_first seen l ↔ x ∈ l ∧ x ∉ seen.
Proof.
  revert seen. induction l as [|a l IH]; intros seen; simpl.
  - split; [constructor|]. set_solver.
  - case_decide as Hin.
    + destruct (IH seen) as [Hnd Hmem]. split; [exact Hnd|].
      intros x. rewrite Hmem. set_solver.
    + destruct (IH (a :: seen)) as [Hnd Hmem]. split.
      * constructor; [|exact Hnd]. rewrite Hmem. set_solver.
      * intros x. rewrite elem_of_cons, Hmem.
        destruct (decide (x = a)) as [-> | Hne]; set_solver.
Qed.

(** ** Origin extraction *)

(** C3: under the modern strategy, [get_origin] sends every annotation
    written in the compact union syntax to the canonical union marker,
    whatever the raise flag is (passed as true, as false, or left out). *)
Theorem get_origin_compact_union
    (host : HostRuntime) (cls : PyObj) (raise_ : option bool) :
  PY310_OR_ABOVE host = true →
  isinstance cls T_types_UnionType = true →
  get_origin host cls raise_ = Ok typing.Union.
Proof.
  intros Hhost Hcls. unfold get_origin, _get_origin. simpl.
  rewrite Hhost, Hcls. reflexivity.
Qed.

Lemma get_origin_compact_union_witness :
  get_origin Py310 int_or_str (Some true) = Ok typing.Union.
Proof.
  apply (get_origin_compact_union Py310 int_or_str (Some true)); reflexivity.
Defined.

(** C2, as stated: an annotation without a recorded origin attribute makes
    [get_origin] raise under the strict flag and come back unchanged
    otherwise.  The compact union [int | str] has no such attribute, and on
    the modern strategy [get_origin] answers the union marker for it under
    either flag. *)
Lemma get_origin_no_origin_counterexample :
  ¬ (∀ (host : HostRuntime) (cls : PyObj),
       getattr cls "__origin__" = Raise AttributeError →
       get_origin host cls (Some true) = Raise AttributeError ∧
       get_origin host cls (Some false) = Ok cls).
Proof.
  intros H. destruct (H Py310 int_or_str eq_refl) as [Hstrict _].
  vm_compute in Hstrict. discriminate.
Qed.

(** C2, amended: for every annotation without a recorded origin attribute
    that is not a compact union seen by the modern strategy, [get_origin]
    raises the no-origin failure under the strict flag and returns the
    annotation itself otherwise; and every class is not generic. *)
Theorem get_origin_no_origin (host : HostRuntime) (cls : PyObj) :
  getattr cls "__origin__" = Raise AttributeError →
  PY310_OR_ABOVE host && isinstance cls T_types_UnionType = false →
  get_origin host cls (Some true) = Raise AttributeError ∧
  get_origin host cls (Some false) = Ok cls ∧
  get_origin host cls None = Ok cls ∧
  (is_class cls = true → is_generic host cls = false).
Proof.
  intros Hattr Hguard. unfold get_origin, _get_origin. simpl.
  rewrite Hattr. simpl.
  assert (Hg : is_class cls = true → is_generic host cls = false).
  { destruct cls; try discriminate. intros _.
    unfold is_generic, _BASE_GENERIC_TYPES. by destruct host. }
  destruct (PY310_OR_ABOVE host); [|done].
  simpl in Hguard. rewrite Hguard. done.
Qed.

Lemma get_origin_no_origin_witness :
  get_origin Py310 builtins.int (Some true) = Raise AttributeError ∧
  get_origin Py310 builtins.int (Some false) = Ok builtins.int ∧
  get_origin Py310 builtins.int None = Ok builtins.int ∧
  (is_class builtins.int = true → is_generic Py310 builtins.int = false).
Proof.
  apply (get_origin_no_origin Py310 builtins.int); reflexivity.
Defined.

(** ** Classification *)

Lemma py_in_markers (origin : PyObj) :
  py_in origin [typing.Generic; typing._Protocol] =
  bool_decide (origin = typing.Generic ∨ origin = typing._Protocol).
Proof.
  unfold py_in. apply bool_decide_ext. set_solver.
Qed.

Lemma nonempty_length {A} (l : list A) :
  bool_decide (0 < length l) = bool_decide (l ≠ []).
Proof.
  apply bool_decide_ext. destruct l; simpl; split; intros; try done; lia.
Qed.

(** C4: on a host whose [typing] has the private names the function
    reads, [is_base_generic] never fails and computes exactly the decision
    rule: the bare sequence generic is a base generic, the sequence of
    integers is not.  On a later host the function fails on every generic
    alias, the sequence of integers among them, at the lookup of
    [typing._Protocol]; the bare sequence generic, which is no generic
    alias there, gives false; any other object is still judged by the
    rule. *)
Theorem is_base_generic_private_names (host : HostRuntime) (cls : PyObj) :
  (typing.has_private_names host = true →
   is_base_generic host cls = Ok (base_generic_rule cls)) ∧
  (typing.has_private_names host = false →
   isinstance cls T_GenericAlias = true →
   is_base_generic host cls = Raise AttributeError) ∧
  (typing.has_private_names host = false →
   isinstance cls T_GenericAlias = false →
   is_base_generic host cls = Ok (base_generic_rule cls)) ∧
  typing.getitem host (typing.bare_name host typing.Sequence) [builtins.int]
    = Ok Sequence_of_int ∧
  is_base_generic host (typing.bare_name host typing.Sequence)
    = Ok (typing.has_private_names host) ∧
  is_base_generic host Sequence_of_int
    = (if typing.has_private_names host then Ok false else Raise AttributeError).
Proof.
  split; [|split; [|split; [|split; [|split]]]]; try (by destruct host).
  - intros Hhost. unfold is_base_generic, _is_base_generic,
      typing.attr__Protocol, typing.attr__VariadicGenericAlias.
    rewrite Hhost.
    destruct cls as [| | | | | | | | | |name|kind origin args|origin md| | | |];
      try reflexivity.
    + (* special form *)
      simpl. f_equal. unfold py_in. apply bool_decide_ext.
      rewrite !elem_of_cons, elem_of_nil. split.
      * intros [H|[H|[H|[]]]]; inversion H; tauto.
      * intros [-> | [-> | ->]]; tauto.
    + (* generic alias *)
      assert (isinstance (GenericAlias kind origin args) T_GenericAlias = true) as ->
        by (by destruct kind).
      simpl. rewrite py_in_markers.
      destruct (bool_decide (origin = typing.Generic ∨ origin = typing._Protocol));
        [reflexivity|].
      destruct kind; simpl; try reflexivity; by rewrite nonempty_length.
    + (* annotated alias *)
      simpl. rewrite py_in_markers.
      destruct (bool_decide (origin = typing.Generic ∨ origin = typing._Protocol));
        [reflexivity|].
      simpl. by rewrite nonempty_length.
  - intros Hhost Halias. unfold is_base_generic, _is_base_generic,
      typing.attr__Protocol.
    rewrite Halias, Hhost.
    destruct cls as [| | | | | | | | | | |[]| | | | |]; try discriminate; reflexivity.
  - intros Hhost Halias. unfold is_base_generic, _is_base_generic.
    rewrite Halias.
    destruct cls as [| | | | | | | | | |name|[]| | | | |];
      try discriminate; try reflexivity.
    simpl. f_equal. unfold py_in. apply bool_decide_ext.
    rewrite !elem_of_cons, elem_of_nil. split.
    + intros [H|[H|[H|[]]]]; inversion H; tauto.
    + intros [-> | [-> | ->]]; tauto.
Qed.

Lemma is_base_generic_private_names_witness :
  is_base_generic Py310 Sequence_of_int = Raise AttributeError.
Proof.
  destruct (is_base_generic_private_names Py310 Sequence_of_int)
    as (_ & Hraise & _).
  apply Hraise; reflexivity.
Defined.

(** C5: [is_literal] never fails; it answers true exactly when the recorded
    origin is the literal-value marker, and false when there is no origin
    attribute at all, as for an ordinary class. *)
Theorem is_literal_iff_origin (cls : PyObj) :
  (∃ b, is_literal cls = Ok b) ∧
  (is_literal cls = Ok true ↔ getattr cls "__origin__" = Ok PyLiteral) ∧
  (getattr cls "__origin__" = Raise AttributeError → is_literal cls = Ok false) ∧
  is_literal builtins.int = Ok false.
Proof.
  unfold is_literal.
  destruct (getattr cls "__origin__") as [origin|e] eqn:Hattr; simpl.
  - split; [eauto|]. split; [|split; [discriminate|reflexivity]].
    split.
    + intros H. inversion H as [H']. apply py_is_true in H'. by subst.
    + intros [= ->]. reflexivity.
  - apply getattr_raises_only_AttributeError in Hattr as ->. simpl.
    split; [eauto|]. split; [split; discriminate|]. split; done.
Qed.

Lemma is_literal_iff_origin_witness :
  is_literal (GenericAlias Parameterized typing.Literal [PyInt 42]) = Ok true ∧
  is_literal builtins.int = Ok false.
Proof.
  split.
  - destruct (is_literal_iff_origin
                (GenericAlias Parameterized typing.Literal [PyInt 42]))
      as (_ & Hiff & _).
    apply Hiff. reflexivity.
  - destruct (is_literal_iff_origin builtins.int) as (_ & _ & Hnone & _).
    apply Hnone. reflexivity.
Defined.

(** C10: [is_typed_dict] is a total boolean test on any value whatsoever.
    The recorded list holds, for each known helper, the runtime type of a
    class built from it; the answer is membership of the exact runtime type
    of the value in that list, and depends on nothing else about the
    value. *)
Theorem is_typed_dict_by_metaclass (PyTypedDicts : list PyObj) (cls : PyObj) :
  TypedDictTypes PyTypedDicts =
    map (λ helper, type_of (class_stmt "RealPyTypedDict" helper)) PyTypedDicts ∧
  (is_typed_dict PyTypedDicts cls = true ↔
   ∃ helper, helper ∈ PyTypedDicts ∧
             type_of cls = type_of (class_stmt "RealPyTypedDict" helper)) ∧
  (is_typed_dict PyTypedDicts cls = false ↔
   ∀ helper, helper ∈ PyTypedDicts →
             type_of cls ≠ type_of (class_stmt "RealPyTypedDict" helper)) ∧
  (∀ other, type_of other = type_of cls →
            is_typed_dict PyTypedDicts other = is_typed_dict PyTypedDicts cls).
Proof.
  assert (Hmap : TypedDictTypes PyTypedDicts =
    map (λ helper, type_of (class_stmt "RealPyTypedDict" helper)) PyTypedDicts).
  { unfold TypedDictTypes.
    apply (foldl_snoc_map (λ helper, type_of (class_stmt "RealPyTypedDict" helper))). }
  assert (Htrue : is_typed_dict PyTypedDicts cls = true ↔
   ∃ helper, helper ∈ PyTypedDicts ∧
             type_of cls = type_of (class_stmt "RealPyTypedDict" helper)).
  { unfold is_typed_dict. rewrite bool_decide_eq_true, Hmap.
    change (map ?f ?l) with (f <$> l). rewrite list_elem_of_fmap.
    split; intros (h & H1 & H2); exists h; done. }
  split; [exact Hmap|]. split; [exact Htrue|]. split.
  - rewrite <- not_true_iff_false, Htrue. split.
    + intros Hno h Hin Heq. apply Hno. eauto.
    + intros Hall (h & Hin & Heq). by apply (Hall h).
  - intros other Heq. unfold is_typed_dict. by rewrite Heq.
Qed.

(** ** Argument extraction *)


(** The union constructor itself hands back the single member of a union
    of one member, so [get_args] is then asked about that member and not
    about a union. *)
Remark union_of_one_member (host : HostRuntime) :
  typing.Union_getitem host [builtins.int; builtins.int] = Ok builtins.int ∧
  get_args host builtins.int = [].
Proof. by destruct host. Qed.



(** ** Field extraction and the raise flag *)

(** C9, as stated: every extraction function defaults to the permissive
    fallback, so that probing never throws.  Probing an ordinary class with
    the flag left out makes [get_named_tuple_field_types] raise, and
    [get_keys_for_typed_dict], which takes no flag, raises on it too. *)
Lemma extraction_defaults_counterexample :
  get_named_tuple_field_types builtins.int None = Raise AttributeError ∧
  get_keys_for_typed_dict builtins.int = Raise AttributeError.
Proof. split; reflexivity. Qed.

(** C9, amended: [get_origin] takes a raise flag that defaults to the
    permissive identity fallback and then never fails;
    [get_named_tuple_field_types] takes one that defaults to raising, and
    never fails once the flag is passed as false; the structural-record
    query takes no flag, returns the two recorded key attributes when both
    are there and fails with the missing-attribute failure when one is
    absent. *)
Theorem extraction_flags (host : HostRuntime) (cls : PyObj) :
  (get_origin host cls None = get_origin host cls (Some false) ∧
   ∃ v, get_origin host cls None = Ok v) ∧
  (get_named_tuple_field_types cls None
     = get_named_tuple_field_types cls (Some true) ∧
   ∃ v, get_named_tuple_field_types cls (Some false) = Ok v) ∧
  (getattr cls "__annotations__" = Raise AttributeError →
   get_named_tuple_field_types cls None = Raise AttributeError ∧
   get_named_tuple_field_types cls (Some false) = Ok PyNone) ∧
  (∀ required optional,
     getattr cls "__required_keys__" = Ok required →
     getattr cls "__optional_keys__" = Ok optional →
     get_keys_for_typed_dict cls = Ok (required, optional)) ∧
  (getattr cls "__required_keys__" = Raise AttributeError ∨
   getattr cls "__optional_keys__" = Raise AttributeError →
   get_keys_for_typed_dict cls = Raise AttributeError).
Proof.
  split; [split; [reflexivity|]|].
  { unfold get_origin, _get_origin. simpl.
    destruct (PY310_OR_ABOVE host), (isinstance cls T_types_UnionType); eauto;
      destruct (getattr cls "__origin__") as [o|e] eqn:Hattr; simpl; eauto;
      apply getattr_raises_only_AttributeError in Hattr as ->; simpl; eauto. }
  split; [split; [reflexivity|]|].
  { unfold get_named_tuple_field_types, _get_named_tuple_field_types. simpl.
    destruct (getattr cls "__annotations__") as [o|e] eqn:Hattr; simpl; eauto.
    apply getattr_raises_only_AttributeError in Hattr as ->; simpl; eauto. }
  split.
  { intros Hattr.
    unfold get_named_tuple_field_types, _get_named_tuple_field_types. simpl.
    rewrite Hattr. by simpl. }
  split.
  { intros required optional Hr Ho. unfold get_keys_for_typed_dict.
    rewrite Hr. simpl. rewrite Ho. reflexivity. }
  intros Habsent. unfold get_keys_for_typed_dict.
  destruct (getattr cls "__required_keys__") as [r|e] eqn:Hr; simpl.
  - destruct Habsent as [Hr'|Ho]; [discriminate|]. by rewrite Ho.
  - apply getattr_raises_only_AttributeError in Hr as ->. reflexivity.
Qed.

Lemma extraction_flags_witness :
  get_named_tuple_field_types builtins.int None = Raise AttributeError ∧
  get_named_tuple_field_types builtins.int (Some false) = Ok PyNone.
Proof.
  destruct (extraction_flags Py37 builtins.int) as (_ & _ & Habsent & _).
  apply Habsent. reflexivity.
Defined.

(** ** Forward references *)

Lemma isinstance_any_FREF (v : PyObj) :
  isinstance_any v FREF___constraints__ = is_deferred v.
Proof. destruct v as [| | | | | | | | | | |[]| | | | |]; reflexivity. Qed.

(** C7: [eval_forward_ref_if_needed] hands back every value that is not a
    deferred reference exactly as it is, whatever the module table and the
    declaring class are (no resolution is attempted); text and placeholders
    are delegated to [eval_forward_ref]; passing a resolved value again
    leaves it unchanged; and resolving the same deferred reference against
    the same class twice gives the same result. *)
Theorem eval_forward_ref_if_needed_passthrough
    (host : HostRuntime) (sys_modules : gmap string (gmap string PyObj))
    (raw cls : PyObj) :
  (is_deferred raw = false →
   eval_forward_ref_if_needed host sys_modules raw cls = Ok raw) ∧
  (is_deferred raw = true →
   eval_forward_ref_if_needed host sys_modules raw cls
     = eval_forward_ref host sys_modules raw cls) ∧
  (∀ resolved,
     eval_forward_ref_if_needed host sys_modules raw cls = Ok resolved →
     is_deferred resolved = false →
     eval_forward_ref_if_needed host sys_modules resolved cls = Ok resolved) ∧
  (∀ first second,
     eval_forward_ref_if_needed host sys_modules raw cls = first →
     eval_forward_ref_if_needed host sys_modules raw cls = second →
     first = second).
Proof.
  assert (Hpass : ∀ v, is_deferred v = false →
            eval_forward_ref_if_needed host sys_modules v cls = Ok v).
  { intros v Hv. unfold eval_forward_ref_if_needed.
    by rewrite isinstance_any_FREF, Hv. }
  split; [apply Hpass|]. split.
  - intros Hraw. unfold eval_forward_ref_if_needed.
    by rewrite isinstance_any_FREF, Hraw.
  - split.
    + intros resolved _ Hres. by apply Hpass.
    + by intros first second <- <-.
Qed.

Lemma eval_forward_ref_if_needed_passthrough_witness :
  eval_forward_ref_if_needed Py37 ∅ builtins.int builtins.str = Ok builtins.int.
Proof.
  destruct (eval_forward_ref_if_needed_passthrough Py37 ∅ builtins.int builtins.str)
    as (Hpass & _).
  apply Hpass. reflexivity.
Defined.

(** *** Reading annotation text *)

Lemma bind_Ok {A B} (a : A) (f : A → result B) : (Ok a ≫= f) = f a.
Proof. reflexivity. Qed.

Lemma string_app_cons (ch : ascii) (a b : string) :
  String ch a +:+ b = String ch (a +:+ b).
Proof. reflexivity. Qed.

Lemma string_app_nil_l (b : string) : "" +:+ b = b.
Proof. reflexivity. Qed.

(** Pushes the literal prefixes of an appended text to the front. *)
Ltac string_simpl :=
  repeat (rewrite string_app_cons || rewrite string_app_nil_l).

Lemma string_app_assoc (a b c : string) : (a +:+ b) +:+ c = a +:+ (b +:+ c).
Proof.
  induction a as [|ch a IH]; string_simpl; [reflexivity|by rewrite IH].
Qed.

Lemma string_app_nil_r (a : string) : a +:+ "" = a.
Proof.
  induction a as [|ch a IH]; string_simpl; [reflexivity|by rewrite IH].
Qed.

(** The tokenizer reads a run of name characters into the pending name. *)
Lemma tokenize_name_chars (name : string) (cur rest : string) :
  annotation.all_ident_chars name = true →
  annotation.tokenize cur (name +:+ rest) = annotation.tokenize (cur +:+ name) rest.
Proof.
  revert cur. induction name as [|ch name IH]; intros cur Hall; string_simpl.
  - by rewrite string_app_nil_r.
  - simpl in Hall. apply andb_prop in Hall as [Hch Hall].
    simpl. rewrite Hch, IH by exact Hall.
    rewrite string_app_assoc. by string_simpl.
Qed.

Lemma identifier_all_ident_chars (name : string) :
  annotation.is_identifier name = true → annotation.all_ident_chars name = true.
Proof.
  destruct name as [|ch name]; [discriminate|]. simpl.
  intros H. apply andb_prop in H as [Hch Hall].
  unfold annotation.is_ident_char. by rewrite Hch, Hall.
Qed.

Lemma flush_identifier (name : string) (ts : list annotation.Token) :
  annotation.is_identifier name = true →
  annotation.flush name ts = Some (annotation.TName name :: ts).
Proof.
  intros Hid. unfold annotation.flush.
  destruct name; [discriminate|]. by rewrite Hid.
Qed.

Lemma tokenize_identifier (name : string) :
  annotation.is_identifier name = true →
  annotation.tokenize "" name = Some [annotation.TName name].
Proof.
  intros Hid.
  rewrite <- (string_app_nil_r name) at 1.
  rewrite tokenize_name_chars by (by apply identifier_all_ident_chars).
  string_simpl. simpl. by apply flush_identifier.
Qed.

(** [X | Y] reads as the compact union of the two names. *)
Lemma parse_compact_union (X Y : string) :
  annotation.is_identifier X = true →
  annotation.is_identifier Y = true →
  annotation.parse (X +:+ " | " +:+ Y)
    = Some (annotation.EOr (annotation.EName X) (annotation.EName Y)).
Proof.
  intros HX HY. unfold annotation.parse.
  rewrite tokenize_name_chars by (by apply identifier_all_ident_chars).
  string_simpl. simpl. rewrite (tokenize_identifier Y HY). simpl.
  rewrite (flush_identifier X _ HX). reflexivity.
Qed.

(** [Union[X, Y]] reads as the subscription of [Union] by the two names. *)
Lemma parse_heavy_union (X Y : string) :
  annotation.is_identifier X = true →
  annotation.is_identifier Y = true →
  annotation.parse ("Union[" +:+ X +:+ ", " +:+ Y +:+ "]")
    = Some (annotation.ESub (annotation.EName "Union")
              [annotation.EName X; annotation.EName Y]).
Proof.
  intros HX HY. unfold annotation.parse.
  change "Union[" with ("Union" +:+ "[").
  rewrite string_app_assoc.
  rewrite (tokenize_name_chars "Union" "" _ eq_refl).
  string_simpl. simpl.
  rewrite tokenize_name_chars by (by apply identifier_all_ident_chars).
  string_simpl. simpl.
  rewrite tokenize_name_chars by (by apply identifier_all_ident_chars).
  string_simpl. simpl.
  rewrite (flush_identifier Y _ HY), (flush_identifier X _ HX). reflexivity.
Qed.

Lemma unparse_heavy_union (X Y : string) :
  annotation.unparse
    (annotation.ESub (annotation.EName "Union")
       [annotation.EName X; annotation.EName Y])
  = "Union[" +:+ X +:+ ", " +:+ Y +:+ "]".
Proof.
  simpl. rewrite !string_app_assoc. by string_simpl.
Qed.

Lemma repl_or_with_union_same (light heavy : string) (a b : annotation.Expr) :
  annotation.parse light = Some (annotation.EOr a b) →
  annotation.parse heavy
    = Some (annotation.ESub (annotation.EName "Union") [a; b]) →
  repl_or_with_union light = repl_or_with_union heavy.
Proof.
  intros Hl Hh. unfold repl_or_with_union. by rewrite Hl, Hh.
Qed.

Lemma legacy_process_forward_annotation (host : HostRuntime) (s : string) :
  PY310_OR_ABOVE host = false →
  _process_forward_annotation host (PyStr s)
    = typing.ForwardRef_init (repl_or_with_union s) false.
Proof.
  intros Hhost. unfold _process_forward_annotation. by rewrite Hhost.
Qed.

Lemma legacy_typing_locals (host : HostRuntime) :
  PY310_OR_ABOVE host = false →
  _TYPING_LOCALS host = Some {[ "Union" := typing.Union ]}.
Proof. intros Hhost. unfold _TYPING_LOCALS. by rewrite Hhost. Qed.

(** The legacy resolution of a text, once the declaring class's module is
    known: the rewritten text is compiled, evaluated in the module's
    namespace under the one-entry local table, and checked to be a type. *)
Lemma legacy_eval_forward_ref_text
    (host : HostRuntime) (sys_modules : gmap string (gmap string PyObj))
    (cls : PyObj) (m : string) (g : gmap string PyObj)
    (s : string) (code : annotation.Expr) :
  PY310_OR_ABOVE host = false →
  getattr cls "__module__" = Ok (PyStr m) →
  sys_modules !! m = Some g →
  annotation.parse (repl_or_with_union s) = Some code →
  eval_forward_ref host sys_modules (PyStr s) cls
    = (typing.eval host g {[ "Union" := typing.Union ]} code
         ≫= typing._type_check false).
Proof.
  intros Hhost Hmod Hg Hcode. unfold eval_forward_ref.
  change (isinstance (PyStr s) T_str) with true. cbv iota.
  rewrite legacy_process_forward_annotation by exact Hhost.
  unfold typing.ForwardRef_init. rewrite Hcode, bind_Ok.
  rewrite Hmod, bind_Ok. unfold module_dict. rewrite Hg, bind_Ok.
  rewrite legacy_typing_locals by exact Hhost.
  unfold typing._eval_type, typing.ForwardRef__evaluate.
  rewrite Hcode. reflexivity.
Qed.

Lemma eval_name (host : HostRuntime) (g l : gmap string PyObj) (name : string) :
  name ≠ "None" →
  typing.eval host g l (annotation.EName name) = typing.lookup_name g l name.
Proof. intros Hne. simpl. by rewrite decide_False. Qed.

(** C8: on the legacy strategy a text in the compact notation and the text
    of the heavy union with the same members resolve alike, because both
    reach the evaluator as the same heavy text.  For two names [X] and [Y]
    the texts are [X | Y] and [Union[X, Y]]; when the names are bound, the
    result is the union the union constructor builds from their values. *)
Theorem legacy_compact_union_resolves_as_heavy
    (host : HostRuntime) (sys_modules : gmap string (gmap string PyObj))
    (cls : PyObj) :
  PY310_OR_ABOVE host = false →
  (∀ light heavy a b,
     annotation.parse light = Some (annotation.EOr a b) →
     annotation.parse heavy
       = Some (annotation.ESub (annotation.EName "Union") [a; b]) →
     eval_forward_ref host sys_modules (PyStr light) cls
       = eval_forward_ref host sys_modules (PyStr heavy) cls) ∧
  (∀ X Y,
     annotation.is_identifier X = true →
     annotation.is_identifier Y = true →
     eval_forward_ref host sys_modules (PyStr (X +:+ " | " +:+ Y)) cls
       = eval_forward_ref host sys_modules
           (PyStr ("Union[" +:+ X +:+ ", " +:+ Y +:+ "]")) cls) ∧
  (∀ X Y m g x y,
     annotation.is_identifier X = true →
     annotation.is_identifier Y = true →
     X ≠ "None" → Y ≠ "None" →
     getattr cls "__module__" = Ok (PyStr m) →
     sys_modules !! m = Some g →
     typing.lookup_name g {[ "Union" := typing.Union ]} X = Ok x →
     typing.lookup_name g {[ "Union" := typing.Union ]} Y = Ok y →
     eval_forward_ref host sys_modules (PyStr (X +:+ " | " +:+ Y)) cls
       = (typing.Union_getitem host [x; y] ≫= typing._type_check false)).
Proof.
  intros Hhost.
  assert (Hsame : ∀ light heavy a b,
     annotation.parse light = Some (annotation.EOr a b) →
     annotation.parse heavy
       = Some (annotation.ESub (annotation.EName "Union") [a; b]) →
     eval_forward_ref host sys_modules (PyStr light) cls
       = eval_forward_ref host sys_modules (PyStr heavy) cls).
  { intros light heavy a b Hl Hh. unfold eval_forward_ref.
    change (isinstance (PyStr light) T_str) with true.
    change (isinstance (PyStr heavy) T_str) with true. cbv iota.
    rewrite !legacy_process_forward_annotation by exact Hhost.
    by rewrite (repl_or_with_union_same light heavy a b Hl Hh). }
  split; [exact Hsame|]. split.
  - intros X Y HX HY.
    apply (Hsame _ _ (annotation.EName X) (annotation.EName Y)).
    + by apply parse_compact_union.
    + by apply parse_heavy_union.
  - intros X Y m g x y HX HY HXn HYn Hmod Hg Hx Hy.
    rewrite (legacy_eval_forward_ref_text host sys_modules cls m g _
               (annotation.ESub (annotation.EName "Union")
                  [annotation.EName X; annotation.EName Y]) Hhost Hmod Hg).
    + change (typing.eval host g {["Union" := typing.Union]}
                (annotation.ESub (annotation.EName "Union")
                   [annotation.EName X; annotation.EName Y]))
        with (typing.eval host g {["Union" := typing.Union]}
                (annotation.EName "Union") ≫= λ obj,
              result_mapM (typing.eval host g {["Union" := typing.Union]})
                [annotation.EName X; annotation.EName Y] ≫= λ params,
              typing.getitem host obj params).
      rewrite eval_name by done.
      unfold typing.lookup_name at 1. rewrite lookup_singleton_eq, bind_Ok.
      unfold result_mapM. rewrite !eval_name by done. rewrite Hx, Hy.
      reflexivity.
    + unfold repl_or_with_union.
      rewrite (parse_compact_union X Y HX HY).
      change (repl_or (annotation.EOr (annotation.EName X) (annotation.EName Y)))
        with (annotation.ESub (annotation.EName "Union")
                [annotation.EName X; annotation.EName Y]).
      rewrite unparse_heavy_union. by apply parse_heavy_union.
Qed.

Lemma legacy_compact_union_resolves_as_heavy_witness :
  eval_forward_ref Py37 app_modules (PyStr "int | str") app_Record
    = eval_forward_ref Py37 app_modules (PyStr "Union[int, str]") app_Record ∧
  eval_forward_ref Py37 app_modules (PyStr "int | str") app_Record
    = Ok (GenericAlias Parameterized typing.Union [builtins.int; builtins.str]).
Proof.
  destruct (legacy_compact_union_resolves_as_heavy Py37 app_modules app_Record eq_refl)
    as (_ & Hnames & Hbound).
  split.
  - exact (Hnames "int" "str" eq_refl eq_refl).
  - exact (Hbound "int" "str" "app" ∅ builtins.int builtins.str
             eq_refl eq_refl ltac:(discriminate) ltac:(discriminate)
             eq_refl eq_refl eq_refl eq_refl).
Defined.

Lemma eval_subscript (host : HostRuntime) (g l : gmap string PyObj)
    (f : annotation.Expr) (args : list annotation.Expr) :
  typing.eval host g l (annotation.ESub f args)
  = (typing.eval host g l f ≫= λ obj,
     result_mapM (typing.eval host g l) args ≫= λ params,
     typing.getitem host obj params).
Proof. reflexivity. Qed.

Lemma lookup_name_builtin (g l : gmap string PyObj) (name : string) :
  l !! name = None → g !! name = None →
  typing.lookup_name g l name
  = match typing.builtins_namespace !! name with
    | Some v => Ok v
    | None => Raise NameError
    end.
Proof. intros Hl Hg. unfold typing.lookup_name. by rewrite Hl, Hg. Qed.

(** C6: on the legacy strategy the local namespace handed to the evaluator
    holds the union marker and nothing else; the table of lowercase
    container names built by [_get_typing_locals] is never consulted.  The
    text [list[int]] therefore reaches the builtin class [list]: a host
    without subscriptable builtins rejects it, a later legacy host answers
    its native alias, and neither answers the generic [List[int]] that the
    table would give. *)
Theorem legacy_locals_lack_container_names
    (host : HostRuntime) (sys_modules : gmap string (gmap string PyObj))
    (cls : PyObj) (m : string) (g : gmap string PyObj) :
  PY310_OR_ABOVE host = false →
  getattr cls "__module__" = Ok (PyStr m) →
  sys_modules !! m = Some g →
  g !! "list" = None →
  g !! "int" = None →
  (∃ locals, _TYPING_LOCALS host = Some locals ∧
             locals !! "list" = None ∧ locals !! "dict" = None ∧
             locals !! "set" = None ∧ locals !! "tuple" = None ∧
             locals !! "frozenset" = None ∧ locals !! "type" = None) ∧
  _get_typing_locals !! "list" = Some typing.List ∧
  eval_forward_ref host sys_modules (PyStr "list[int]") cls
    = match host with
      | Py37 => Raise TypeError
      | _ => Ok (TypesGenericAlias builtins.list [builtins.int])
      end ∧
  typing._eval_type host (ForwardRef "list[int]" false) g (Some _get_typing_locals)
    = Ok (GenericAlias Parameterized builtins.list [builtins.int]).
Proof.
  intros Hhost Hmod Hg Hlist Hint.
  split.
  { exists {[ "Union" := typing.Union ]}.
    split; [by apply legacy_typing_locals|]. repeat split; reflexivity. }
  split; [reflexivity|].
  assert (Hparse : annotation.parse "list[int]"
            = Some (annotation.ESub (annotation.EName "list") [annotation.EName "int"]))
    by (vm_compute; reflexivity).
  split.
  - rewrite (legacy_eval_forward_ref_text host sys_modules cls m g _
               (annotation.ESub (annotation.EName "list") [annotation.EName "int"])
               Hhost Hmod Hg)
      by (vm_compute; reflexivity).
    rewrite eval_subscript. unfold result_mapM.
    rewrite !eval_name by done.
    rewrite !lookup_name_builtin by done.
    change (typing.builtins_namespace !! "list") with (Some builtins.list).
    change (typing.builtins_namespace !! "int") with (Some builtins.int).
    by destruct host.
  - unfold typing._eval_type, typing.ForwardRef__evaluate.
    rewrite Hparse. unfold default.
    rewrite eval_subscript. unfold result_mapM.
    rewrite !eval_name by done.
    unfold typing.lookup_name.
    change (_get_typing_locals !! "list") with (Some typing.List).
    change (_get_typing_locals !! "int") with (@None PyObj).
    rewrite Hint.
    change (typing.builtins_namespace !! "int") with (Some builtins.int).
    by destruct host.
Qed.

Lemma legacy_locals_lack_container_names_witness :
  eval_forward_ref Py37 app_modules (PyStr "list[int]") app_Record = Raise TypeError.
Proof.
  destruct (legacy_locals_lack_container_names Py37 app_modules app_Record "app" ∅
              eq_refl eq_refl eq_refl eq_refl eq_refl) as (_ & _ & Hraise & _).
  exact Hraise.
Defined.

(** * Further properties of the module *)

(** ** How the classifications relate *)

Lemma TypedDictTypes_map (PyTypedDicts : list PyObj) :
  TypedDictTypes PyTypedDicts
  = map (λ helper, type_of (class_stmt "RealPyTypedDict" helper)) PyTypedDicts.
Proof.
  unfold TypedDictTypes.
  apply (foldl_snoc_map (λ helper, type_of (class_stmt "RealPyTypedDict" helper))).
Qed.

Lemma class_stmt_is_class (name : string) (base : PyObj) :
  ∃ meta attrs, class_stmt name base = PyClass meta name attrs.
Proof. destruct base; simpl; eauto. Qed.

Lemma type_of_class_stmt_name (name name' : string) (base : PyObj) :
  type_of (class_stmt name base) = type_of (class_stmt name' base).
Proof. by destruct base. Qed.

Lemma type_of_meta_inv (cls : PyObj) (m : MetaClass) :
  type_of cls = T_meta m → is_class cls = true.
Proof.
  destruct cls as [| | | | | | | | | | |[]| | | | |]; simpl; congruence.
Qed.

(** X1: whatever [is_base_generic] accepts on a host, [is_generic]
    accepts on that host. *)
Theorem base_generic_is_generic (host : HostRuntime) (cls : PyObj) :
  is_base_generic host cls = Ok true → is_generic host cls = true.
Proof.
  unfold is_base_generic, _is_base_generic, is_generic, _BASE_GENERIC_TYPES.
  destruct cls as [| | | | | | | | | | |[]| | | | |];
    simpl; try discriminate; intros _; by destruct host.
Qed.

Lemma base_generic_is_generic_witness : is_generic Py310 typing.Union = true.
Proof. apply (base_generic_is_generic Py310 typing.Union). reflexivity. Defined.

(** X2: only classes are structural records: a value accepted by
    [is_typed_dict] is a class, and none of the other classifications
    accepts it. *)
Theorem typed_dict_is_class
    (host : HostRuntime) (PyTypedDicts : list PyObj) (cls : PyObj) :
  is_typed_dict PyTypedDicts cls = true →
  is_class cls = true ∧
  is_generic host cls = false ∧
  is_base_generic host cls = Ok false ∧
  is_annotated cls = false.
Proof.
  unfold is_typed_dict. rewrite bool_decide_eq_true, TypedDictTypes_map.
  change (map ?f ?l) with (f <$> l). rewrite list_elem_of_fmap.
  intros (helper & Heq & _).
  destruct (class_stmt_is_class "RealPyTypedDict" helper) as (meta & attrs & Hc).
  rewrite Hc in Heq. apply type_of_meta_inv in Heq.
  destruct cls; try discriminate.
  repeat split; try reflexivity.
  unfold is_generic, _BASE_GENERIC_TYPES. by destruct host.
Qed.

Lemma typed_dict_is_class_witness :
  is_class (class_stmt "Movie" (PyTypedDictHelper "typing")) = true ∧
  is_generic Py37 (class_stmt "Movie" (PyTypedDictHelper "typing")) = false ∧
  is_base_generic Py37 (class_stmt "Movie" (PyTypedDictHelper "typing")) = Ok false ∧
  is_annotated (class_stmt "Movie" (PyTypedDictHelper "typing")) = false.
Proof.
  apply (typed_dict_is_class Py37 [PyTypedDictHelper "typing"]). reflexivity.
Defined.

(** X3: a class declared from one of the known helpers is recognised
    whatever its name is; with no helper known, nothing is a structural
    record. *)
Theorem declared_typed_dict_recognised
    (PyTypedDicts : list PyObj) (helper : PyObj) (name : string) :
  helper ∈ PyTypedDicts →
  is_typed_dict PyTypedDicts (class_stmt name helper) = true ∧
  (∀ cls, is_typed_dict [] cls = false).
Proof.
  intros Hin. split; [|reflexivity].
  unfold is_typed_dict. rewrite bool_decide_eq_true, TypedDictTypes_map.
  change (map ?f ?l) with (f <$> l). rewrite list_elem_of_fmap.
  exists helper. split; [apply type_of_class_stmt_name|exact Hin].
Qed.

Lemma declared_typed_dict_recognised_witness :
  is_typed_dict [PyTypedDictHelper "typing"; PyTypedDictHelper "typing_extensions"]
    (class_stmt "Movie" (PyTypedDictHelper "typing_extensions")) = true.
Proof.
  apply (declared_typed_dict_recognised
           [PyTypedDictHelper "typing"; PyTypedDictHelper "typing_extensions"]
           (PyTypedDictHelper "typing_extensions") "Movie").
  set_solver.
Defined.

(** X4: an annotated wrapper is generic on either strategy; its origin is
    the wrapped type, and its arguments are the wrapped type followed by
    the metadata. *)
Theorem annotated_decomposition
    (host : HostRuntime) (cls : PyObj) (raise_ : option bool) :
  is_annotated cls = true →
  is_generic host cls = true ∧
  ∃ origin metadata,
    cls = AnnotatedAlias origin metadata ∧
    get_origin host cls raise_ = Ok origin ∧
    get_args host cls = origin :: metadata.
Proof.
  destruct cls as [| | | | | | | | | | |[]|origin md| | | |]; try discriminate.
  intros _. split.
  - unfold is_generic, _BASE_GENERIC_TYPES. by destruct host.
  - exists origin, md. split; [reflexivity|]. split.
    + unfold get_origin, _get_origin. by destruct host.
    + unfold get_args, _get_args. by destruct host.
Qed.

Lemma annotated_decomposition_witness :
  is_generic Py39 (AnnotatedAlias builtins.int [PyStr "unit"]) = true.
Proof.
  apply (annotated_decomposition Py39 (AnnotatedAlias builtins.int [PyStr "unit"]) None).
  reflexivity.
Defined.

(** ** The two flags and the two strategies of [get_origin] *)

(** X5: the raise flag matters only when no origin is found: when the
    strict call succeeds, the permissive call and the call without the
    flag give the same origin; the permissive call never fails and answers
    either that origin or the annotation itself; and the only failure of
    the strict call is the missing-attribute failure. *)
Theorem get_origin_flag_agreement (host : HostRuntime) (cls : PyObj) :
  (∀ origin, get_origin host cls (Some true) = Ok origin →
             get_origin host cls (Some false) = Ok origin ∧
             get_origin host cls None = Ok origin) ∧
  (get_origin host cls (Some false) = Ok cls ∨
   get_origin host cls (Some false) = get_origin host cls (Some true)) ∧
  (∀ e, get_origin host cls (Some true) = Raise e →
        e = AttributeError ∧ get_origin host cls (Some false) = Ok cls).
Proof.
  unfold get_origin, _get_origin. simpl.
  destruct (PY310_OR_ABOVE host), (isinstance cls T_types_UnionType);
    try (split; [intros ? [= <-]; done|split; [by right|discriminate]]);
    destruct (getattr cls "__origin__") as [o|e] eqn:Hattr; simpl;
    try apply getattr_raises_only_AttributeError in Hattr as ->; simpl;
    (split; [intros origin H; inversion H; done|]);
    (split; [auto|]); intros e' H; inversion H; done.
Qed.

Lemma get_origin_flag_agreement_witness :
  get_origin Py37 (GenericAlias Parameterized builtins.list [builtins.int]) (Some false)
    = Ok builtins.list ∧
  get_origin Py37 (GenericAlias Parameterized builtins.list [builtins.int]) None
    = Ok builtins.list.
Proof.
  destruct (get_origin_flag_agreement Py37
              (GenericAlias Parameterized builtins.list [builtins.int]))
    as (Hstrict & _).
  apply Hstrict. reflexivity.
Defined.

(** X6: [is_literal] and [get_origin] agree on either strategy: an
    annotation is a literal-value type exactly when its strict origin is
    the literal-value marker. *)
Theorem is_literal_iff_get_origin (host : HostRuntime) (cls : PyObj) :
  is_literal cls = Ok true ↔ get_origin host cls (Some true) = Ok PyLiteral.
Proof.
  unfold is_literal, get_origin, _get_origin. simpl.
  destruct (PY310_OR_ABOVE host) eqn:Hhost;
    [destruct (isinstance cls T_types_UnionType) eqn:Hu|].
  - destruct cls as [| | | | | | | | | | |[]| | | | |]; try discriminate.
    simpl. split; discriminate.
  - destruct (getattr cls "__origin__") as [o|e] eqn:Hattr; simpl.
    + split; [intros [= H%py_is_true]; by subst|intros [= ->]; reflexivity].
    + apply getattr_raises_only_AttributeError in Hattr as ->. simpl.
      split; discriminate.
  - destruct (getattr cls "__origin__") as [o|e] eqn:Hattr; simpl.
    + split; [intros [= H%py_is_true]; by subst|intros [= ->]; reflexivity].
    + apply getattr_raises_only_AttributeError in Hattr as ->. simpl.
      split; discriminate.
Qed.

(** X7: the two strategies of [get_origin] differ on compact unions only,
    and a compact union, which the modern strategy sends to the union
    marker, comes back unchanged from the permissive legacy call and makes
    the strict legacy call fail. *)
Theorem get_origin_strategies (cls : PyObj) (raise_ : option bool) :
  (isinstance cls T_types_UnionType = false →
   ∀ host host', get_origin host cls raise_ = get_origin host' cls raise_) ∧
  (isinstance cls T_types_UnionType = true →
   ∀ host, PY310_OR_ABOVE host = false →
           get_origin host cls (Some false) = Ok cls ∧
           get_origin host cls (Some true) = Raise AttributeError).
Proof.
  split.
  - intros Hu host host'. unfold get_origin, _get_origin.
    rewrite Hu. by destruct (PY310_OR_ABOVE host), (PY310_OR_ABOVE host').
  - intros Hu host Hhost. unfold get_origin, _get_origin. rewrite Hhost.
    destruct cls as [| | | | | | | | | | |[]| | | | |]; try discriminate.
    split; reflexivity.
Qed.

Lemma get_origin_strategies_witness :
  get_origin Py39 int_or_str (Some false) = Ok int_or_str ∧
  get_origin Py39 int_or_str (Some true) = Raise AttributeError.
Proof.
  destruct (get_origin_strategies int_or_str None) as [_ Hlegacy].
  apply Hlegacy; reflexivity.
Defined.

(** X8: what the legacy strategy takes for generic, the modern one does
    too; the native aliases of builtin containers and the compact unions
    are generic for the modern strategy and not for the legacy one. *)
Theorem is_generic_strategies (host host' : HostRuntime) (cls : PyObj) :
  PY310_OR_ABOVE host = false →
  PY310_OR_ABOVE host' = true →
  (is_generic host cls = true → is_generic host' cls = true) ∧
  (isinstance_any cls [T_types_GenericAlias; T_types_UnionType] = true →
   is_generic host cls = false ∧ is_generic host' cls = true) ∧
  (is_generic host' cls = true → is_generic host cls = false →
   isinstance_any cls [T_types_GenericAlias; T_types_UnionType] = true).
Proof.
  intros Hhost Hhost'. unfold is_generic, _BASE_GENERIC_TYPES.
  rewrite Hhost, Hhost'.
  destruct cls as [| | | | | | | | | | |[]| | | | |]; simpl;
    repeat split; intros; try done.
Qed.

Lemma is_generic_strategies_witness :
  is_generic Py39 (TypesGenericAlias builtins.list [builtins.int]) = false ∧
  is_generic Py310 (TypesGenericAlias builtins.list [builtins.int]) = true.
Proof.
  destruct (is_generic_strategies Py39 Py310
              (TypesGenericAlias builtins.list [builtins.int]) eq_refl eq_refl)
    as (_ & Hnative & _).
  apply Hnative. reflexivity.
Defined.

(** ** The table of local names *)

(** X9: on the 3.7 host, whose [typing] binds the bare names to generic
    aliases, every entry of the table built by [_get_typing_locals] is an
    unparameterized generic without arguments, and every entry but the
    union marker has as its origin a class that bears the entry's name:
    the lowercase names of the builtin containers lead to the very classes
    the builtin names denote. *)
Theorem typing_locals_are_base_generics (name : string) (v : PyObj) :
  _get_typing_locals !! name = Some v →
  is_base_generic Py37 v = Ok true ∧
  get_args Py37 v = [] ∧
  (name ≠ "Union" →
   ∃ meta attrs, get_origin Py37 v None = Ok (PyClass meta name attrs)) ∧
  (∀ cls, typing.builtins_namespace !! name = Some cls →
          get_origin Py37 v None = Ok cls).
Proof.
  intros Hin. unfold _get_typing_locals in Hin.
  apply elem_of_list_to_map_2 in Hin.
  repeat (apply elem_of_cons in Hin as [[= -> ->]|Hin]);
    [..|by apply elem_of_nil in Hin];
    (split; [reflexivity|]); (split; [reflexivity|]);
    (split; [try done; intros _; eexists _, _; reflexivity|]);
    intros cls Hcls; vm_compute in Hcls; try discriminate;
    injection Hcls as <-; reflexivity.
Qed.

Lemma typing_locals_are_base_generics_witness :
  is_base_generic Py37 typing.Dict = Ok true ∧
  get_args Py37 typing.Dict = [] ∧
  (("dict" : string) ≠ "Union" →
   ∃ meta attrs, get_origin Py37 typing.Dict None = Ok (PyClass meta "dict" attrs)) ∧
  (∀ cls, typing.builtins_namespace !! "dict" = Some cls →
          get_origin Py37 typing.Dict None = Ok cls).
Proof.
  apply (typing_locals_are_base_generics "dict" typing.Dict). reflexivity.
Defined.

(** ** Arguments of callables and of subscripted generics *)

Lemma result_mapM_ext_map {A B} (f : A → result B) (g : A → B) (l : list A) :
  Forall (λ x, f x = Ok (g x)) l → result_mapM f l = Ok (map g l).
Proof.
  induction 1 as [|x l Hx _ IH]; simpl; [reflexivity|].
  by rewrite Hx, IH.
Qed.

Lemma type_check_argument_class (p : PyObj) :
  is_argument_class p = true → typing._type_check true p = Ok p.
Proof.
  unfold is_argument_class. intros [Hc Hm]%andb_prop.
  destruct p; try discriminate. unfold typing._type_check.
  by rewrite (negb_true_iff _) in Hm; rewrite Hm.
Qed.

Lemma type_check_argument_classes (ps : list PyObj) :
  Forall (λ p, is_argument_class p = true) ps →
  result_mapM (typing._type_check true) ps = Ok ps.
Proof.
  intros Hps. rewrite (result_mapM_ext_map _ id).
  - by rewrite map_id.
  - eapply Forall_impl; [exact Hps|]. intros p Hp. by apply type_check_argument_class.
Qed.



Lemma type_vars_of_type_vars (tvs : list PyObj) :
  Forall (λ a, is_type_var a = true) tvs →
  concat (map type_vars_of tvs) = tvs.
Proof.
  induction 1 as [|a tvs Ha _ IH]; simpl; [reflexivity|].
  destruct a; try discriminate. simpl. by rewrite IH.
Qed.

Lemma type_vars_of_classes (ps : list PyObj) :
  Forall (λ p, is_class p = true) ps →
  concat (map type_vars_of ps) = [].
Proof.
  induction 1 as [|p ps Hp _ IH]; simpl; [reflexivity|].
  destruct p; try discriminate. simpl. exact IH.
Qed.

Lemma subst_tvar_in (tvars subs : list PyObj) (arg : PyObj) :
  arg ∈ tvars → length subs = length tvars →
  typing.subst_tvar tvars subs arg ∈ subs.
Proof.
  revert subs. induction tvars as [|tv tvars IH]; intros subs Hin Hlen.
  - by apply elem_of_nil in Hin.
  - destruct subs as [|sub subs]; [discriminate|]. simpl.
    case_decide as Heq; [by left|].
    right. apply IH; [|by injection Hlen].
    apply elem_of_cons in Hin as [?|?]; [contradiction|assumption].
Qed.

(** X11: on the 3.7 host, whose [typing] binds the bare names to generic
    aliases over their type variables, subscripting a bare generic with as
    many classes as it has type variables succeeds, and the alias that
    comes out keeps the origin, is generic, and is no base generic any
    more; with any other number of classes the subscription is rejected as
    a type error. *)
Theorem subscripted_generic_is_not_base
    (origin : PyObj) (tvs params : list PyObj) :
  Forall (λ a, is_type_var a = true) tvs →
  Forall (λ p, is_argument_class p = true) params →
  py_in origin [typing.Generic; typing._Protocol] = false →
  origin ≠ typing.Union →
  (tvs ≠ [] → length params = length (_collect_type_vars tvs) →
   ∃ t, typing.getitem Py37 (GenericAlias BareSpecial origin tvs) params = Ok t ∧
        is_base_generic Py37 (GenericAlias BareSpecial origin tvs) = Ok true ∧
        is_base_generic Py37 t = Ok false ∧
        is_generic Py37 t = true ∧
        get_origin Py37 t None = Ok origin) ∧
  (length params ≠ length (_collect_type_vars tvs) →
   typing.getitem Py37 (GenericAlias BareSpecial origin tvs) params
     = Raise TypeError).
Proof.
  intros Htvs Hparams Hmark Hunion.
  assert (Hcollect : _collect_type_vars tvs = dedup_first [] tvs)
    by (unfold _collect_type_vars; by rewrite type_vars_of_type_vars).
  assert (Hitem : typing.getitem Py37 (GenericAlias BareSpecial origin tvs) params
    = match _collect_type_vars tvs with
      | [] => Raise TypeError
      | _ => if decide (length params = length (_collect_type_vars tvs))
             then Ok (GenericAlias Parameterized origin
                        (map (typing.subst_tvar (_collect_type_vars tvs) params) tvs))
             else Raise TypeError
      end).
  { unfold typing.getitem, typing.GenericAlias_getitem.
    rewrite Hmark, (type_check_argument_classes params Hparams), bind_Ok.
    destruct (_collect_type_vars tvs) as [|tv tvars] eqn:Hc; [reflexivity|].
    case_decide; [|reflexivity].
    simpl.
    rewrite (result_mapM_ext_map _ (typing.subst_tvar (tv :: tvars) params)).
    - rewrite bind_Ok. unfold py_is. by rewrite bool_decide_eq_false_2.
    - eapply Forall_impl; [exact Htvs|]. intros a Ha. by destruct a. }
  split.
  - intros Hne Hlen.
    assert (Hnonempty : _collect_type_vars tvs ≠ []).
    { rewrite Hcollect. by destruct tvs as [|a tvs']. }
    exists (GenericAlias Parameterized origin
              (map (typing.subst_tvar (_collect_type_vars tvs) params) tvs)).
    split.
    { rewrite Hitem. destruct (_collect_type_vars tvs); [done|].
      by rewrite decide_True. }
    split.
    { unfold is_base_generic, _is_base_generic. simpl. rewrite Hmark. simpl.
      f_equal. apply bool_decide_eq_true. destruct (_collect_type_vars tvs); [done|].
      simpl. lia. }
    split; [|split; reflexivity].
    unfold is_base_generic, _is_base_generic. simpl. rewrite Hmark. simpl.
    assert (Hnone : _collect_type_vars
              (map (typing.subst_tvar (_collect_type_vars tvs) params) tvs) = []).
    { unfold _collect_type_vars at 1. rewrite type_vars_of_classes; [reflexivity|].
      apply Forall_forall. intros p Hp.
      change (map ?f ?l) with (f <$> l) in Hp.
      apply list_elem_of_fmap in Hp as (a & -> & Ha).
      assert (Hin : typing.subst_tvar (_collect_type_vars tvs) params a ∈ params).
      { apply subst_tvar_in; [|exact Hlen].
        rewrite Hcollect. apply dedup_first_spec. split; [exact Ha|].
        apply not_elem_of_nil. }
      rewrite Forall_forall in Hparams.
      apply Hparams in Hin.
      unfold is_argument_class in Hin. by apply andb_prop in Hin as [? _]. }
    by rewrite Hnone.
  - intros Hlen. rewrite Hitem.
    destruct (_collect_type_vars tvs); [reflexivity|]. by rewrite decide_False.
Qed.

Lemma subscripted_generic_is_not_base_witness :
  ∃ t, typing.getitem Py37 typing.Dict [builtins.str; builtins.int] = Ok t ∧
       is_base_generic Py37 typing.Dict = Ok true ∧
       is_base_generic Py37 t = Ok false ∧
       is_generic Py37 t = true ∧
       get_origin Py37 t None = Ok builtins.dict.
Proof.
  destruct (subscripted_generic_is_not_base builtins.dict
              [typing.KT; typing.VT] [builtins.str; builtins.int])
    as [Hok _]; try (repeat constructor); try done.
  apply Hok; done.
Defined.

(** ** Resolution of forward references *)

Lemma parse_identifier (X : string) :
  annotation.is_identifier X = true →
  annotation.parse X = Some (annotation.EName X).
Proof.
  intros HX. unfold annotation.parse. by rewrite (tokenize_identifier X HX).
Qed.

Lemma type_check_class (is_argument : bool) (p : PyObj) :
  is_argument_class p = true → typing._type_check is_argument p = Ok p.
Proof.
  unfold is_argument_class. intros [Hc Hm]%andb_prop.
  destruct p; try discriminate. unfold typing._type_check.
  apply negb_true_iff in Hm. by rewrite Hm.
Qed.

Lemma builtins_are_argument_classes (name : string) (b : PyObj) :
  typing.builtins_namespace !! name = Some b → is_argument_class b = true.
Proof.
  intros Hin. unfold typing.builtins_namespace in Hin.
  apply elem_of_list_to_map_2 in Hin.
  repeat (apply elem_of_cons in Hin as [[= -> ->]|Hin]);
    [..|by apply elem_of_nil in Hin]; reflexivity.
Qed.

(** The resolution of a placeholder, once the declaring class's module is
    known. *)
Lemma eval_forward_ref_placeholder
    (host : HostRuntime) (sys_modules : gmap string (gmap string PyObj))
    (cls : PyObj) (m : string) (g : gmap string PyObj)
    (arg : string) (is_argument : bool) (code : annotation.Expr) :
  getattr cls "__module__" = Ok (PyStr m) →
  sys_modules !! m = Some g →
  annotation.parse arg = Some code →
  eval_forward_ref host sys_modules (ForwardRef arg is_argument) cls
    = (typing.eval host g (default g (_TYPING_LOCALS host)) code
         ≫= typing._type_check is_argument).
Proof.
  intros Hmod Hg Hcode. unfold eval_forward_ref.
  change (isinstance (ForwardRef arg is_argument) T_str) with false. cbv iota.
  rewrite bind_Ok, Hmod, bind_Ok. unfold module_dict. rewrite Hg, bind_Ok.
  unfold typing._eval_type, typing.ForwardRef__evaluate. by rewrite Hcode.
Qed.

(** The resolution of a text, once the declaring class's module is known
    and the text handed to the placeholder builder compiles. *)
Lemma eval_forward_ref_text
    (host : HostRuntime) (sys_modules : gmap string (gmap string PyObj))
    (cls : PyObj) (m : string) (g : gmap string PyObj)
    (s : string) (code : annotation.Expr) :
  getattr cls "__module__" = Ok (PyStr m) →
  sys_modules !! m = Some g →
  annotation.parse (if PY310_OR_ABOVE host then s else repl_or_with_union s)
    = Some code →
  eval_forward_ref host sys_modules (PyStr s) cls
    = (typing.eval host g (default g (_TYPING_LOCALS host)) code
         ≫= typing._type_check false).
Proof.
  intros Hmod Hg Hcode. unfold eval_forward_ref.
  change (isinstance (PyStr s) T_str) with true. cbv iota.
  unfold _process_forward_annotation, PyForwardRef, typing.ForwardRef_init.
  destruct (PY310_OR_ABOVE host); rewrite Hcode, bind_Ok, Hmod, bind_Ok;
    unfold module_dict; rewrite Hg, bind_Ok;
    unfold typing._eval_type, typing.ForwardRef__evaluate; by rewrite Hcode.
Qed.

Lemma repl_or_with_union_identifier (X : string) :
  annotation.is_identifier X = true → repl_or_with_union X = X.
Proof.
  intros HX. unfold repl_or_with_union. by rewrite (parse_identifier X HX).
Qed.

Lemma lookup_name_local_table (host : HostRuntime) (g : gmap string PyObj) (X : string) :
  X ≠ "Union" →
  typing.lookup_name g (default g (_TYPING_LOCALS host)) X
  = match g !! X with
    | Some v => Ok v
    | None => match typing.builtins_namespace !! X with
              | Some v => Ok v
              | None => Raise NameError
              end
    end.
Proof.
  intros HX. unfold typing.lookup_name, _TYPING_LOCALS.
  destruct (PY310_OR_ABOVE host); cbv [default from_option id].
  - destruct (g !! X); reflexivity.
  - rewrite lookup_singleton_ne by done. reflexivity.
Qed.

(** X12: a text that is a single name, no reserved word and not the
    name of the union marker, resolves on either strategy to the class the
    name denotes in the module of the declaring class, through
    [eval_forward_ref_if_needed] as well; a name the module does not bind
    and that names one of the builtin classes resolves to that class. *)
Theorem eval_forward_ref_resolves_name
    (host : HostRuntime) (sys_modules : gmap string (gmap string PyObj))
    (cls : PyObj) (m : string) (g : gmap string PyObj) (X : string) :
  annotation.is_identifier X = true →
  X ∉ python_keywords → X ≠ "Union" →
  getattr cls "__module__" = Ok (PyStr m) →
  sys_modules !! m = Some g →
  (∀ x, g !! X = Some x → is_argument_class x = true →
        getattr x "__module__" ≠ Ok (PyStr "typing") →
        eval_forward_ref host sys_modules (PyStr X) cls = Ok x ∧
        eval_forward_ref_if_needed host sys_modules (PyStr X) cls = Ok x) ∧
  (∀ b, g !! X = None → typing.builtins_namespace !! X = Some b →
        eval_forward_ref host sys_modules (PyStr X) cls = Ok b).
Proof.
  intros HX Hkeyword HUnion Hmod Hg.
  assert (HNone : X ≠ "None").
  { intros ->. apply Hkeyword. rewrite list_elem_of_lookup. by exists 1. }
  assert (Heval : eval_forward_ref host sys_modules (PyStr X) cls
            = (typing.lookup_name g (default g (_TYPING_LOCALS host)) X
                 ≫= typing._type_check false)).
  { rewrite (eval_forward_ref_text host sys_modules cls m g X (annotation.EName X)
               Hmod Hg).
    - by rewrite eval_name.
    - destruct (PY310_OR_ABOVE host);
        [|rewrite (repl_or_with_union_identifier X HX)];
        by apply parse_identifier. }
  rewrite lookup_name_local_table in Heval by exact HUnion.
  split.
  - intros x Hx Hclass _. rewrite Hx, bind_Ok in Heval.
    rewrite (type_check_class false x Hclass) in Heval.
    split; [exact Heval|].
    unfold eval_forward_ref_if_needed. exact Heval.
  - intros b Hx Hb. rewrite Hx, Hb, bind_Ok in Heval.
    by rewrite (type_check_class false b (builtins_are_argument_classes X b Hb)) in Heval.
Qed.

Lemma eval_forward_ref_resolves_name_witness :
  eval_forward_ref Py310 app_modules_bound (PyStr "Record") app_Record = Ok app_Record ∧
  eval_forward_ref_if_needed Py310 app_modules_bound (PyStr "Record") app_Record
    = Ok app_Record.
Proof.
  assert (Hkeyword : "Record" ∉ python_keywords).
  { apply (bool_decide_unpack _). vm_compute. exact I. }
  destruct (eval_forward_ref_resolves_name Py310 app_modules_bound app_Record
              "app" app_namespace "Record"
              eq_refl Hkeyword ltac:(discriminate) eq_refl eq_refl)
    as (Hbound & _).
  apply Hbound; [reflexivity|reflexivity|discriminate].
Defined.

(** X13: the failures of [eval_forward_ref] come in the order of its
    steps.  A failure to build the placeholder from the text escapes
    whatever the declaring class is; then a declaring class without a
    module attribute fails as a missing attribute, and one whose module is
    not loaded as a missing key; and a class handed in as the reference
    comes back unchanged only when the declaring class's module is
    loaded. *)
Theorem eval_forward_ref_failures
    (host : HostRuntime) (sys_modules : gmap string (gmap string PyObj))
    (base_type cls : PyObj) :
  (∀ e, isinstance base_type T_str = true →
        _process_forward_annotation host base_type = Raise e →
        eval_forward_ref host sys_modules base_type cls = Raise e) ∧
  (∀ placeholder,
     (if isinstance base_type T_str
      then _process_forward_annotation host base_type
      else Ok base_type) = Ok placeholder →
     (getattr cls "__module__" = Raise AttributeError →
      eval_forward_ref host sys_modules base_type cls = Raise AttributeError) ∧
     (∀ m, getattr cls "__module__" = Ok (PyStr m) →
           sys_modules !! m = None →
           eval_forward_ref host sys_modules base_type cls = Raise KeyError) ∧
     (∀ m g, getattr cls "__module__" = Ok (PyStr m) →
             sys_modules !! m = Some g →
             is_class base_type = true →
             eval_forward_ref host sys_modules base_type cls = Ok base_type)).
Proof.
  split.
  - intros e Hstr Hraise. unfold eval_forward_ref. by rewrite Hstr, Hraise.
  - intros placeholder Hok. unfold eval_forward_ref. rewrite Hok, bind_Ok.
    split; [|split].
    + intros Hmod. by rewrite Hmod.
    + intros m Hmod Hm. rewrite Hmod, bind_Ok. unfold module_dict. by rewrite Hm.
    + intros m g Hmod Hg Hclass. rewrite Hmod, bind_Ok.
      unfold module_dict. rewrite Hg, bind_Ok.
      destruct base_type; try discriminate.
      simpl in Hok. by injection Hok as <-.
Qed.

Lemma eval_forward_ref_failures_witness :
  eval_forward_ref Py37 ∅ builtins.int app_Record = Raise KeyError ∧
  eval_forward_ref_if_needed Py37 ∅ builtins.int app_Record = Ok builtins.int.
Proof.
  split; [|reflexivity].
  destruct (eval_forward_ref_failures Py37 ∅ builtins.int app_Record) as [_ Hsteps].
  destruct (Hsteps builtins.int eq_refl) as (_ & Hkey & _).
  apply (Hkey "app"); reflexivity.
Defined.

Lemma eval_compact_union (host : HostRuntime) (g l : gmap string PyObj)
    (a b : annotation.Expr) :
  typing.eval host g l (annotation.EOr a b)
  = (typing.eval host g l a ≫= λ x,
     typing.eval host g l b ≫= λ y, typing.or_ host x y).
Proof. reflexivity. Qed.

(** X14: on the legacy strategy only text is rewritten.  A placeholder
    that holds the compact union of two bound names reaches the evaluator
    as it is and is rejected as a type error, through
    [eval_forward_ref_if_needed] as well. *)
Theorem legacy_placeholder_is_not_rewritten
    (host : HostRuntime) (sys_modules : gmap string (gmap string PyObj))
    (cls : PyObj) (m : string) (g : gmap string PyObj)
    (X Y : string) (x y : PyObj) (is_argument : bool) :
  PY310_OR_ABOVE host = false →
  annotation.is_identifier X = true →
  annotation.is_identifier Y = true →
  X ≠ "None" → Y ≠ "None" →
  getattr cls "__module__" = Ok (PyStr m) →
  sys_modules !! m = Some g →
  typing.lookup_name g {[ "Union" := typing.Union ]} X = Ok x →
  typing.lookup_name g {[ "Union" := typing.Union ]} Y = Ok y →
  eval_forward_ref host sys_modules
    (ForwardRef (X +:+ " | " +:+ Y) is_argument) cls = Raise TypeError ∧
  eval_forward_ref_if_needed host sys_modules
    (ForwardRef (X +:+ " | " +:+ Y) is_argument) cls = Raise TypeError.
Proof.
  intros Hhost HX HY HXn HYn Hmod Hg Hx Hy.
  assert (Heval : eval_forward_ref host sys_modules
            (ForwardRef (X +:+ " | " +:+ Y) is_argument) cls = Raise TypeError).
  { rewrite (eval_forward_ref_placeholder host sys_modules cls m g _ _
               (annotation.EOr (annotation.EName X) (annotation.EName Y)) Hmod Hg)
      by (by apply parse_compact_union).
    rewrite legacy_typing_locals by exact Hhost. cbv [default from_option id].
    rewrite eval_compact_union, !eval_name by done. rewrite Hx, bind_Ok, Hy, bind_Ok.
    unfold typing.or_. by rewrite Hhost. }
  split; [exact Heval|].
  unfold eval_forward_ref_if_needed. exact Heval.
Qed.

Lemma legacy_placeholder_is_not_rewritten_witness :
  eval_forward_ref Py39 app_modules (ForwardRef "int | str" false) app_Record
    = Raise TypeError ∧
  eval_forward_ref_if_needed Py39 app_modules (ForwardRef "int | str" false) app_Record
    = Raise TypeError.
Proof.
  exact (legacy_placeholder_is_not_rewritten Py39 app_modules app_Record "app" ∅
           "int" "str" builtins.int builtins.str false
           eq_refl eq_refl eq_refl ltac:(discriminate) ltac:(discriminate)
           eq_refl eq_refl eq_refl eq_refl).
Defined.

Lemma is_argument_class_inv (p : PyObj) :
  is_argument_class p = true →
  ∃ meta name attrs, p = PyClass meta name attrs.
Proof.
  unfold is_argument_class. intros [Hc _]%andb_prop.
  destruct p; try discriminate. eauto.
Qed.

Lemma not_in_singleton (x y : PyObj) : x ≠ y → y ∉ [x].
Proof.
  intros Hne Hin.
  apply elem_of_cons in Hin as [->|Hin]; [done|by apply elem_of_nil in Hin].
Qed.

(** X15: on the modern strategy a text that compiles resolves exactly as
    the placeholder built from it, and the compact union of two names
    bound to distinct classes resolves to the compact union of the two
    classes, in the written order, which [get_origin] and [get_args] take
    apart into the union marker and the two classes. *)
Theorem modern_text_resolution
    (host : HostRuntime) (sys_modules : gmap string (gmap string PyObj))
    (cls : PyObj) (m : string) (g : gmap string PyObj) :
  PY310_OR_ABOVE host = true →
  getattr cls "__module__" = Ok (PyStr m) →
  sys_modules !! m = Some g →
  (∀ s code, annotation.parse s = Some code →
     eval_forward_ref host sys_modules (PyStr s) cls
       = eval_forward_ref host sys_modules (ForwardRef s false) cls) ∧
  (∀ X Y x y,
     annotation.is_identifier X = true → annotation.is_identifier Y = true →
     X ≠ "None" → Y ≠ "None" →
     g !! X = Some x → g !! Y = Some y →
     is_argument_class x = true → is_argument_class y = true → x ≠ y →
     eval_forward_ref host sys_modules (PyStr (X +:+ " | " +:+ Y)) cls
       = Ok (UnionType [x; y]) ∧
     get_origin host (UnionType [x; y]) None = Ok typing.Union ∧
     get_args host (UnionType [x; y]) = [x; y]).
Proof.
  intros Hhost Hmod Hg. split.
  - intros s code Hcode.
    rewrite (eval_forward_ref_placeholder host sys_modules cls m g s false code
               Hmod Hg Hcode).
    apply (eval_forward_ref_text host sys_modules cls m g s code Hmod Hg).
    by rewrite Hhost.
  - intros X Y x y HX HY HXn HYn Hx Hy Hcx Hcy Hne.
    split; [|split].
    + rewrite (eval_forward_ref_text host sys_modules cls m g _
                 (annotation.EOr (annotation.EName X) (annotation.EName Y)) Hmod Hg)
        by (rewrite Hhost; by apply parse_compact_union).
      rewrite eval_compact_union, !eval_name by done.
      unfold typing.lookup_name, _TYPING_LOCALS. rewrite Hhost. simpl.
      rewrite Hx, bind_Ok, Hy, bind_Ok.
      destruct (is_argument_class_inv x Hcx) as (mx & nx & ax & ->).
      destruct (is_argument_class_inv y Hcy) as (my & ny & ay & ->).
      unfold typing.or_. rewrite Hhost. simpl.
      by rewrite decide_False by (by apply not_in_singleton).
    + unfold get_origin, _get_origin. by rewrite Hhost.
    + unfold get_args, _get_args. by rewrite Hhost.
Qed.

Lemma modern_text_resolution_witness :
  eval_forward_ref Py310 shop_modules (PyStr "Item | Order") shop_Item
    = Ok (UnionType [shop_Item; shop_Order]) ∧
  get_origin Py310 (UnionType [shop_Item; shop_Order]) None = Ok typing.Union ∧
  get_args Py310 (UnionType [shop_Item; shop_Order]) = [shop_Item; shop_Order].
Proof.
  destruct (modern_text_resolution Py310 shop_modules shop_Item "shop"
              shop_namespace eq_refl eq_refl eq_refl) as [_ Hunion].
  exact (Hunion "Item" "Order" shop_Item shop_Order eq_refl eq_refl
           ltac:(discriminate) ltac:(discriminate) eq_refl eq_refl
           eq_refl eq_refl ltac:(discriminate)).
Defined.

(** X16: whether the declaring module must bind the name of the union
    marker depends on the strategy.  When the module binds two names to
    distinct classes and does not bind [Union], the heavy text
    [Union[X, Y]] resolves on the legacy strategy, through the local
    table, to the union of the two classes, and fails on the modern
    strategy as an unresolvable name. *)
Theorem heavy_union_needs_the_local_table
    (host : HostRuntime) (sys_modules : gmap string (gmap string PyObj))
    (cls : PyObj) (m : string) (g : gmap string PyObj)
    (X Y : string) (x y : PyObj) :
  annotation.is_identifier X = true → annotation.is_identifier Y = true →
  X ≠ "None" → Y ≠ "None" → X ≠ "Union" → Y ≠ "Union" →
  getattr cls "__module__" = Ok (PyStr m) →
  sys_modules !! m = Some g →
  g !! "Union" = None →
  g !! X = Some x → g !! Y = Some y →
  is_argument_class x = true → is_argument_class y = true → x ≠ y →
  eval_forward_ref host sys_modules
    (PyStr ("Union[" +:+ X +:+ ", " +:+ Y +:+ "]")) cls
  = if PY310_OR_ABOVE host then Raise NameError
    else Ok (GenericAlias Parameterized typing.Union [x; y]).
Proof.
  intros HX HY HXn HYn HXu HYu Hmod Hg HU Hx Hy Hcx Hcy Hne.
  rewrite (eval_forward_ref_text host sys_modules cls m g _
             (annotation.ESub (annotation.EName "Union")
                [annotation.EName X; annotation.EName Y]) Hmod Hg).
  - rewrite eval_subscript. unfold result_mapM.
    rewrite !eval_name by done.
    rewrite (lookup_name_local_table host g X HXu), Hx.
    rewrite (lookup_name_local_table host g Y HYu), Hy.
    unfold typing.lookup_name, _TYPING_LOCALS.
    destruct (PY310_OR_ABOVE host) eqn:Hhost; simpl.
    + by rewrite HU.
    + rewrite lookup_singleton_eq, bind_Ok.
      destruct (is_argument_class_inv x Hcx) as (mx & nx & ax & ->).
      destruct (is_argument_class_inv y Hcy) as (my & ny & ay & ->).
      unfold typing.getitem, typing.SpecialForm_getitem, typing.Union,
        typing.Union_getitem.
      rewrite (type_check_argument_classes _
                 (Forall_cons_2 _ _ _ Hcx (Forall_cons_2 _ _ _ Hcy (Forall_nil_2 _)))).
      rewrite bind_Ok. unfold typing._remove_dups_flatten. simpl.
      by rewrite decide_False by (by apply not_in_singleton).
  - destruct (PY310_OR_ABOVE host); [by apply parse_heavy_union|].
    unfold repl_or_with_union. rewrite (parse_heavy_union X Y HX HY).
    change (repl_or (annotation.ESub (annotation.EName "Union")
                       [annotation.EName X; annotation.EName Y]))
      with (annotation.ESub (annotation.EName "Union")
              [annotation.EName X; annotation.EName Y]).
    rewrite unparse_heavy_union. by apply parse_heavy_union.
Qed.

Lemma heavy_union_needs_the_local_table_witness :
  eval_forward_ref Py37 shop_modules (PyStr "Union[Item, Order]") shop_Item
    = Ok (GenericAlias Parameterized typing.Union [shop_Item; shop_Order]) ∧
  eval_forward_ref Py310 shop_modules (PyStr "Union[Item, Order]") shop_Item
    = Raise NameError.
Proof.
  split.
  - exact (heavy_union_needs_the_local_table Py37 shop_modules shop_Item "shop"
             shop_namespace "Item" "Order" shop_Item shop_Order
             eq_refl eq_refl ltac:(discriminate) ltac:(discriminate)
             ltac:(discriminate) ltac:(discriminate) eq_refl eq_refl eq_refl
             eq_refl eq_refl eq_refl eq_refl ltac:(discriminate)).
  - exact (heavy_union_needs_the_local_table Py310 shop_modules shop_Item "shop"
             shop_namespace "Item" "Order" shop_Item shop_Order
             eq_refl eq_refl ltac:(discriminate) ltac:(discriminate)
             ltac:(discriminate) ltac:(discriminate) eq_refl eq_refl eq_refl
             eq_refl eq_refl eq_refl eq_refl ltac:(discriminate)).
Defined.
